(** * CVrio: the Google OAuth demo server of [src/auth.js]

    A shallow embedding of the Express application: the configuration
    read from [process.env], [validateConfig], the single in-memory
    session slot [currentUser] and the route handlers, followed by the
    properties the specification states about them.

    What lies outside the program is a parameter of the model: the
    environment variables, the answers of the identity provider and of
    the user store, and the clock. *)

From stdpp Require Import gmap strings list fin_maps pretty.
From Stdlib Require Import ZArith.

Set Warnings "-register-all".
Open Scope Z_scope.

(** ** JavaScript values *)

(** The values the program handles: what [process.env], [req.query] and
    the JSON bodies of the provider and of the store can hold.  A number
    is held as the text that [Number.prototype.toString] gives for it
    (["3000"], ["0.5"], ["1e+21"], ["NaN"]; ["0"] for both zeros): the
    program does no arithmetic, it only tests numbers and prints
    them. *)
Inductive jsval : Type :=
| JUndefined
| JNull
| JBool (b : bool)
| JNum (text : string)
| JStr (s : string)
| JArr (l : list jsval)
| JObj (m : gmap string jsval).

(** [ToBoolean]: what [if (v)], [!v], [!!v] and [v || w] test. *)
Definition js_truthy (v : jsval) : bool :=
  match v with
  | JUndefined | JNull => false
  | JBool b => b
  | JNum text => negb (String.eqb text "0" || String.eqb text "NaN")
  | JStr s => match s with EmptyString => false | String _ _ => true end
  | JArr _ | JObj _ => true
  end.

(** [a || b] *)
Definition js_or (a b : jsval) : jsval := if js_truthy a then a else b.

(** [ToString], as a template literal applies it to [${v}]; [None]
    stands for the [TypeError] it raises.  An array is its elements
    joined by commas, a hole for [null] and [undefined], and cannot be
    printed when one of its elements cannot.  A plain object prints as
    ["[object Object]"] through [Object.prototype.toString], unless it
    has a property [toString] of its own: a value of a query string or
    of a JSON body is never callable, [valueOf] then gives back the
    object, and the conversion raises the [TypeError]. *)
Fixpoint js_to_string (v : jsval) : option string :=
  match v with
  | JUndefined => Some "undefined"
  | JNull => Some "null"
  | JBool true => Some "true"
  | JBool false => Some "false"
  | JNum text => Some text
  | JStr s => Some s
  | JArr l =>
      String.concat "," <$>
        (fix elements (l : list jsval) : option (list string) :=
           match l with
           | [] => Some []
           | e :: rest =>
               match (match e with
                      | JUndefined | JNull => Some ""
                      | _ => js_to_string e
                      end), elements rest with
               | Some x, Some xs => Some (x :: xs)
               | _, _ => None
               end
           end) l
  | JObj m =>
      match m !! "toString" with
      | Some _ => None
      | None => Some "[object Object]"
      end
  end.

(** [o.k] on an object held as a map ([req.query], [process.env]):
    a missing key reads as [undefined]. *)
Definition obj_get (o : gmap string jsval) (k : string) : jsval :=
  default JUndefined (o !! k).

(** [v.k] on any value.  [None] stands for the [TypeError] that reading a
    property of [undefined] or [null] raises.  On a string, number,
    boolean or array the property names this program reads
    ([access_token], [email], [name], [picture], [id], [data], [error],
    [message], [hint]) are not defined, so the read gives [undefined]. *)
Definition js_get (v : jsval) (k : string) : option jsval :=
  match v with
  | JUndefined | JNull => None
  | JObj m => Some (obj_get m k)
  | JBool _ | JNum _ | JStr _ | JArr _ => Some JUndefined
  end.

(** ** Configuration *)

(** [process.env] after dotenv has run: names to strings. *)
Definition env_get (env : gmap string string) (k : string) : jsval :=
  match env !! k with
  | Some s => JStr s
  | None => JUndefined
  end.

Record DatabaseConfig := {
  url : jsval;
  key : jsval;
  database_required : bool
}.

Record GoogleConfig := {
  clientId : jsval;
  clientSecret : jsval;
  redirectUri : jsval;
  google_required : bool
}.

Record OAuthConfig := { google : GoogleConfig }.

Record ServerConfig := {
  port : jsval;
  nodeEnv : jsval;
  server_required : bool
}.

Record EnvConfig := {
  database : DatabaseConfig;
  oauth : OAuthConfig;
  server : ServerConfig
}.

Definition envConfig (env : gmap string string) : EnvConfig :=
  {| database :=
       {| url := env_get env "SUPABASE_URL";
          key := env_get env "SUPABASE_ANON_KEY";
          database_required := true |};
     oauth :=
       {| google :=
            {| clientId := env_get env "GOOGLE_CLIENT_ID";
               clientSecret := env_get env "GOOGLE_CLIENT_SECRET";
               redirectUri :=
                 js_or (env_get env "REDIRECT_URI")
                       (JStr "http://localhost:3000/auth/google/callback");
               google_required := true |} |};
     server :=
       {| port := js_or (env_get env "PORT") (JNum "3000");
          nodeEnv := js_or (env_get env "NODE_ENV") (JStr "development");
          server_required := false |} |}.

(** ** Startup *)

(** A line written to the console: the stream and the arguments, which
    [console.log] prints separated by one space. *)
Inductive ConsoleLine :=
| ConsoleError (args : list string)
| ConsoleLog (args : list string).

(** How a run of startup code ends: it returns to its caller, or
    [process.exit(code)] ends the process on the spot. *)
Inductive Completion :=
| Returned
| Exited (code : Z).

(** [Array.prototype.join] on an array of strings. *)
Definition join (sep : string) (l : list string) : string := String.concat sep l.

(** [missingVars.push(name)] under [if (!v)]. *)
Definition push_if_missing (v : jsval) (name : string) (missingVars : list string)
  : list string :=
  if negb (js_truthy v) then missingVars ++ [name] else missingVars.

Definition missingVars (cfg : EnvConfig) : list string :=
  let m := [] in
  let m := push_if_missing (url (database cfg)) "SUPABASE_URL" m in
  let m := push_if_missing (key (database cfg)) "SUPABASE_ANON_KEY" m in
  let m := push_if_missing (clientId (google (oauth cfg))) "GOOGLE_CLIENT_ID" m in
  let m := push_if_missing (clientSecret (google (oauth cfg))) "GOOGLE_CLIENT_SECRET" m in
  m.

Definition validateConfig (cfg : EnvConfig) : list ConsoleLine * Completion :=
  let m := missingVars cfg in
  if (0 <? Z.of_nat (length m)) then
    ([ ConsoleError ["❌ Missing required environment variables. Please check your .env file."];
       ConsoleLog ["Required variables:"; join ", " m] ],
     Exited 1)
  else
    ([ ConsoleLog ["✅ All required environment variables are set"] ], Returned).

(** The state of the process once the module has run: ended by
    [process.exit], or at [app.listen] with the configured port and the
    routes installed.  [createClient], the middleware and the route
    registrations between [validateConfig()] and [app.listen] are calls
    into Express and the Supabase client that return. *)
Inductive Process :=
| Terminated (code : Z)
| Listening (on_port : jsval).

(** The module run from top to bottom.  Of the console output the
    lines of [validateConfig] are kept; the debug lines before it and
    the banner of [app.listen] are left out. *)
Definition startup (env : gmap string string) : list ConsoleLine * Process :=
  let cfg := envConfig env in
  match validateConfig cfg with
  | (out, Exited c) => (out, Terminated c)
  | (out, Returned) => (out, Listening (port (server cfg)))
  end.

(** ** The session slot *)

(** The object [{ id, email, name, picture }] that a completed sign-in
    stores; each field is whatever the provider's profile held. *)
Record AuthenticatedUser := {
  id : jsval;
  email : jsval;
  name : jsval;
  picture : jsval
}.

(** [let currentUser = null]: the slot is [null] or one such object. *)
Definition Session := option AuthenticatedUser.

(** [if (currentUser)] and [!!currentUser]: an object is truthy, [null]
    is not. *)
Definition authenticated (currentUser : Session) : bool :=
  match currentUser with
  | Some _ => true
  | None => false
  end.

(** The slot's object as a value, for [res.json]. *)
Definition user_object (u : AuthenticatedUser) : jsval :=
  JObj {[ "id" := id u; "email" := email u; "name" := name u; "picture" := picture u ]}.

(** ** The outside world *)

(** An axios response object, of which the program reads [status] and
    [data]. *)
Record AxiosResponse := {
  status : Z;
  data : jsval
}.

(** A thrown error as the [catch] block reads it: [err.message] and,
    for an HTTP error, [err.response]. *)
Record JsError := {
  message : jsval;
  response : option AxiosResponse
}.

(** What a call gives back: a value, or an exception (for an awaited
    promise: fulfilled, or rejected). *)
Inductive Result (A : Type) :=
| Ok (a : A)
| Thrown (e : JsError).
Arguments Ok {A} a.
Arguments Thrown {A} e.

(** What the network does with one request: it fails, or some HTTP
    response comes back. *)
Inductive NetResult :=
| TransportFailure (reason : string)
| HttpResponse (http_status : Z) (body : jsval).

(** axios with its default [validateStatus]: the promise is fulfilled on
    a status from 200 to 299 and rejected otherwise; a rejection for a
    status carries the response, one for a transport failure does not. *)
Definition axios_settle (r : NetResult) : Result AxiosResponse :=
  match r with
  | TransportFailure reason => Thrown {| message := JStr reason; response := None |}
  | HttpResponse st d =>
      if (200 <=? st) && (st <? 300) then Ok {| status := st; data := d |}
      else Thrown {| message := JStr ("Request failed with status code " +:+ pretty st);
                     response := Some {| status := st; data := d |} |}
  end.

(** The answers of the outside world during one request. *)
Record World := {
  (** the network's answer to a POST to [url] with these query parameters *)
  net_post : string -> jsval -> NetResult;
  (** the network's answer to a GET of [url] with these headers *)
  net_get : string -> jsval -> NetResult;
  (** what [await supabase.from(table).upsert(row, options)] gives: the
      Supabase client reports a failure of the store in the [error] of
      the value it resolves with; [Thrown] is a promise that rejects *)
  store_upsert : string -> jsval -> jsval -> Result jsval;
  (** [new Date().toISOString()] *)
  now : string
}.

(** One outbound call with what came back. *)
Inductive Event :=
| AxiosPost (url : string) (params : jsval) (answer : NetResult)
| AxiosGet (url : string) (headers : jsval) (answer : NetResult)
| SupabaseUpsert (table : string) (row options : jsval) (answer : Result jsval).

(** ** Handler code: state, exceptions and outbound calls *)

(** A piece of handler code runs from a content of the session slot to a
    result or an exception, a new content of the slot, and the outbound
    calls it made, in order. *)
Definition M (A : Type) : Type := Session -> Result A * Session * list Event.

#[export] Instance M_ret : MRet M := fun A a s => (Ok a, s, []).

#[export] Instance M_bind : MBind M := fun A B f m s =>
  match m s with
  | (Ok a, s1, t1) => let '(r, s2, t2) := f a s1 in (r, s2, t1 ++ t2)
  | (Thrown e, s1, t1) => (Thrown e, s1, t1)
  end.

Definition throw {A} (e : JsError) : M A := fun s => (Thrown e, s, []).

(** [try { body } catch (err) { handler }] *)
Definition try_catch {A} (body : M A) (handler : JsError -> M A) : M A := fun s =>
  match body s with
  | (Ok a, s1, t1) => (Ok a, s1, t1)
  | (Thrown e, s1, t1) => let '(r, s2, t2) := handler e s1 in (r, s2, t1 ++ t2)
  end.

Definition get_currentUser : M Session := fun s => (Ok s, s, []).
Definition set_currentUser (v : Session) : M unit := fun _ => (Ok tt, v, []).

(** [await axios.post(url, null, { params })] *)
Definition axios_post (w : World) (url : string) (params : jsval) : M AxiosResponse :=
  fun s => let answer := net_post w url params in
           (axios_settle answer, s, [AxiosPost url params answer]).

(** [await axios.get(url, { headers })] *)
Definition axios_get (w : World) (url : string) (headers : jsval) : M AxiosResponse :=
  fun s => let answer := net_get w url headers in
           (axios_settle answer, s, [AxiosGet url headers answer]).

(** [await supabase.from(table).upsert(row, options)] *)
Definition supabase_upsert (w : World) (table : string) (row options : jsval) : M jsval :=
  fun s => let answer := store_upsert w table row options in
           (answer, s, [SupabaseUpsert table row options answer]).

(** The [TypeError]s of Node's engine. *)
Definition type_error (text : string) : JsError :=
  {| message := JStr text; response := None |}.

Definition nullish_name (v : jsval) : string :=
  match v with
  | JNull => "null"
  | _ => "undefined"
  end.

Definition read_error_text (v : jsval) (k : string) : string :=
  "Cannot read properties of " +:+ nullish_name v +:+ " (reading '" +:+ k +:+ "')".

Definition read_error (v : jsval) (k : string) : JsError :=
  type_error (read_error_text v k).

Definition destructure_error_text (v : jsval) (k source : string) : string :=
  "Cannot destructure property '" +:+ k +:+ "' of '" +:+ source
  +:+ "' as it is " +:+ nullish_name v +:+ ".".

Definition destructure_error (v : jsval) (k source : string) : JsError :=
  type_error (destructure_error_text v k source).

(** The text of the [TypeError] of a conversion to string. *)
Definition unprintable : string := "Cannot convert object to primitive value".

(** [${v}]: the text of [v] in a template literal. *)
Definition to_string (v : jsval) : M string :=
  match js_to_string v with
  | Some text => mret text
  | None => throw (type_error unprintable)
  end.

(** [v.k] *)
Definition read_prop (v : jsval) (k : string) : M jsval :=
  match js_get v k with
  | Some x => mret x
  | None => throw (read_error v k)
  end.

(** [const { k } = v], where [source] is how the engine names [v]. *)
Definition destructure_prop (v : jsval) (k source : string) : M jsval :=
  match js_get v k with
  | Some x => mret x
  | None => throw (destructure_error v k source)
  end.

(** ** Responses *)

(** What the client gets: a page, a JSON value or a redirect, each
    with its status, or nothing at all, when the handler ends without
    having answered. *)
Inductive Response :=
| Send (code : Z) (html : string)
| SendJson (code : Z) (json : jsval)
| Redirect (code : Z) (location : string)
| NoResponse.

(** The status of a response; 0 when nothing is sent. *)
Definition status_of (r : Response) : Z :=
  match r with
  | Send c _ | SendJson c _ | Redirect c _ => c
  | NoResponse => 0
  end.

(** [res.send(html)] and [res.json(v)] answer 200 unless [res.status]
    was called; [res.redirect(url)] answers 302. *)
Definition res_send (html : string) : Response := Send 200 html.
Definition res_json (v : jsval) : Response := SendJson 200 v.
Definition res_redirect (location : string) : Response := Redirect 302 location.

(** ** Pages *)

(** The line feed and the double quote of the page texts. *)
Definition nl : string := String (Ascii.ascii_of_nat 10) EmptyString.
Definition dq : string := String (Ascii.ascii_of_nat 34) EmptyString.

(** A template literal written over several lines: a line feed follows
    the opening backquote and precedes each line; the last line is the
    indentation before the closing backquote. *)
Definition template (lines : list string) : string :=
  foldr (fun l rest => nl +:+ l +:+ rest) "" lines.

(** Lines 81-109: the logged-in view of [/], with the texts of the
    three interpolated values. *)
Definition page_welcome (currentUser_name currentUser_picture currentUser_email : string) : string :=
  template
    [ "      <!DOCTYPE html>";
      "      <html>";
      "      <head>";
      "        <title>CVrio - Welcome</title>";
      "        <style>";
      "          body { font-family: Arial, sans-serif; text-align: center; padding: 50px; background-color: #f5f5f5; }";
      "          .container { max-width: 600px; margin: 0 auto; background: white; padding: 30px; border-radius: 10px; box-shadow: 0 2px 10px rgba(0,0,0,0.1); }";
      "          .profile-img { border-radius: 50%; width: 100px; height: 100px; margin: 20px 0; }";
      "          .btn { padding: 10px 20px; margin: 10px; text-decoration: none; background-color: #4285f4; color: white; border-radius: 5px; display: inline-block; }";
      "          .btn:hover { background-color: #357ae8; }";
      "          .logout-btn { background-color: #dc3545; }";
      "          .logout-btn:hover { background-color: #c82333; }";
      "        </style>";
      "      </head>";
      "      <body>";
      "        <div class=" +:+ dq +:+ "container" +:+ dq +:+ ">";
      "          <h1>🎉 Welcome to CVrio!</h1>";
      "          <h2>Hello, " +:+ currentUser_name +:+ "!</h2>";
      "          <img src=" +:+ dq +:+ currentUser_picture +:+ dq +:+ " alt=" +:+ dq +:+ "Profile Picture" +:+ dq +:+ " class=" +:+ dq +:+ "profile-img" +:+ dq +:+ ">";
      "          <p><strong>Email:</strong> " +:+ currentUser_email +:+ "</p>";
      "          <div>";
      "            <a href=" +:+ dq +:+ "/profile" +:+ dq +:+ " class=" +:+ dq +:+ "btn" +:+ dq +:+ ">View Profile API</a>";
      "            <a href=" +:+ dq +:+ "/logout" +:+ dq +:+ " class=" +:+ dq +:+ "btn logout-btn" +:+ dq +:+ ">Logout</a>";
      "          </div>";
      "        </div>";
      "      </body>";
      "      </html>";
      "    " ].

(** Lines 111-146: the logged-out view of [/]. *)
Definition page_login : string :=
  template
    [ "      <!DOCTYPE html>";
      "      <html>";
      "      <head>";
      "        <title>CVrio - Login</title>";
      "        <style>";
      "          body { font-family: Arial, sans-serif; text-align: center; padding: 50px; background-color: #f5f5f5; }";
      "          .container { max-width: 400px; margin: 0 auto; background: white; padding: 30px; border-radius: 10px; box-shadow: 0 2px 10px rgba(0,0,0,0.1); }";
      "          .google-btn { ";
      "            display: inline-flex; ";
      "            align-items: center; ";
      "            padding: 12px 24px; ";
      "            background-color: #4285f4; ";
      "            color: white; ";
      "            text-decoration: none; ";
      "            border-radius: 5px; ";
      "            font-size: 16px;";
      "            margin-top: 20px;";
      "          }";
      "          .google-btn:hover { background-color: #357ae8; }";
      "          .google-icon { margin-right: 10px; }";
      "        </style>";
      "      </head>";
      "      <body>";
      "        <div class=" +:+ dq +:+ "container" +:+ dq +:+ ">";
      "          <h1>📋 CVrio</h1>";
      "          <h2>Welcome! Please sign in to continue.</h2>";
      "          <p>Secure authentication with Google</p>";
      "          <a href=" +:+ dq +:+ "/auth/google" +:+ dq +:+ " class=" +:+ dq +:+ "google-btn" +:+ dq +:+ ">";
      "            <span class=" +:+ dq +:+ "google-icon" +:+ dq +:+ ">🔐</span>";
      "            Sign in with Google";
      "          </a>";
      "        </div>";
      "      </body>";
      "      </html>";
      "    " ].

(** Lines 167-171: the provider reported an error. *)
Definition page_oauth_error (error : string) : string :=
  template
    [ "      <h2>❌ Authentication Error</h2>";
      "      <p>Error: " +:+ error +:+ "</p>";
      "      <a href=" +:+ dq +:+ "/" +:+ dq +:+ ">Try Again</a>";
      "    " ].

(** Lines 176-180: no authorization code. *)
Definition page_no_code : string :=
  template
    [ "      <h2>❌ Authentication Failed</h2>";
      "      <p>No authorization code provided</p>";
      "      <a href=" +:+ dq +:+ "/" +:+ dq +:+ ">Try Again</a>";
      "    " ].

(** Lines 230-235: the store rejected the upsert; [hint] is the text
    of [supabaseError.hint || '...']. *)
Definition page_database_error (supabaseError_message hint : string) : string :=
  template
    [ "        <h2>❌ Database Error</h2>";
      "        <p>Failed to store user: " +:+ supabaseError_message +:+ "</p>";
      "        <p><strong>Hint:</strong> " +:+ hint +:+ "</p>";
      "        <a href=" +:+ dq +:+ "/" +:+ dq +:+ ">Try Again</a>";
      "      " ].

(** Lines 261-265: the [catch] block. *)
Definition page_auth_failed (err_message : string) : string :=
  template
    [ "      <h2>❌ Authentication Failed</h2>";
      "      <p>Error: " +:+ err_message +:+ "</p>";
      "      <a href=" +:+ dq +:+ "/" +:+ dq +:+ ">Try Again</a>";
      "    " ].

(** Lines 276-296: [/logout]. *)
Definition page_logged_out : string :=
  template
    [ "    <!DOCTYPE html>";
      "    <html>";
      "    <head>";
      "      <title>CVrio - Logged Out</title>";
      "      <style>";
      "        body { font-family: Arial, sans-serif; text-align: center; padding: 50px; background-color: #f5f5f5; }";
      "        .container { max-width: 400px; margin: 0 auto; background: white; padding: 30px; border-radius: 10px; box-shadow: 0 2px 10px rgba(0,0,0,0.1); }";
      "        .btn { padding: 10px 20px; margin: 10px; text-decoration: none; background-color: #4285f4; color: white; border-radius: 5px; display: inline-block; }";
      "        .btn:hover { background-color: #357ae8; }";
      "      </style>";
      "    </head>";
      "    <body>";
      "      <div class=" +:+ dq +:+ "container" +:+ dq +:+ ">";
      "        <h2>👋 Successfully Logged Out</h2>";
      "        <p>Thank you for using CVrio!</p>";
      "        <a href=" +:+ dq +:+ "/" +:+ dq +:+ " class=" +:+ dq +:+ "btn" +:+ dq +:+ ">Sign In Again</a>";
      "      </div>";
      "    </body>";
      "    </html>";
      "  " ].

(** Lines 334-338: the error-handling middleware. *)
Definition page_unhandled : string :=
  template
    [ "    <h2>❌ Something went wrong!</h2>";
      "    <p>Please try again later.</p>";
      "    <a href=" +:+ dq +:+ "/" +:+ dq +:+ ">Go Home</a>";
      "  " ].

(** Lines 343-347: the 404 handler. *)
Definition page_not_found : string :=
  template
    [ "    <h2>🔍 Page Not Found</h2>";
      "    <p>The page you're looking for doesn't exist.</p>";
      "    <a href=" +:+ dq +:+ "/" +:+ dq +:+ ">Go Home</a>";
      "  " ].

Arguments page_welcome : simpl never.
Arguments page_login : simpl never.
Arguments page_oauth_error : simpl never.
Arguments page_no_code : simpl never.
Arguments page_database_error : simpl never.
Arguments page_auth_failed : simpl never.
Arguments page_logged_out : simpl never.
Arguments page_unhandled : simpl never.
Arguments page_not_found : simpl never.

(** ** Routes *)

(** [GET /] *)
Definition home_handler : M Response :=
  currentUser ← get_currentUser;
  match currentUser with
  | Some u =>
      currentUser_name ← to_string (name u);
      currentUser_picture ← to_string (picture u);
      currentUser_email ← to_string (email u);
      mret (res_send (page_welcome currentUser_name currentUser_picture currentUser_email))
  | None => mret (res_send page_login)
  end.

(** [encodeURIComponent] of the two scopes separated by a space. *)
Definition scope : string :=
  "https%3A%2F%2Fwww.googleapis.com%2Fauth%2Fuserinfo.profile%20https%3A%2F%2Fwww.googleapis.com%2Fauth%2Fuserinfo.email".

(** [GET /auth/google] *)
Definition auth_google_handler (cfg : EnvConfig) : M Response :=
  client_id ← to_string (clientId (google (oauth cfg)));
  redirect_uri ← to_string (redirectUri (google (oauth cfg)));
  let authUrl :=
    "https://accounts.google.com/o/oauth2/v2/auth?client_id=" +:+ client_id
    +:+ "&redirect_uri=" +:+ redirect_uri
    +:+ "&response_type=code&scope=" +:+ scope +:+ "&access_type=offline" in
  mret (res_redirect authUrl).

Definition token_endpoint : string := "https://oauth2.googleapis.com/token".
Definition userinfo_endpoint : string := "https://www.googleapis.com/oauth2/v2/userinfo".

(** The [params] of the token request. *)
Definition token_params (cfg : EnvConfig) (code : jsval) : jsval :=
  JObj {[ "code" := code;
          "client_id" := clientId (google (oauth cfg));
          "client_secret" := clientSecret (google (oauth cfg));
          "redirect_uri" := redirectUri (google (oauth cfg));
          "grant_type" := JStr "authorization_code" ]}.

(** The [headers] of the userinfo request, from the text of the access
    token. *)
Definition userinfo_headers (access_token : string) : jsval :=
  JObj {[ "Authorization" := JStr ("Bearer " +:+ access_token) ]}.

(** The row of the upsert and its options. *)
Definition upsert_row (row_email row_name row_picture row_google_id : jsval)
  (last_login : string) : jsval :=
  JObj {[ "email" := row_email;
          "name" := row_name;
          "picture" := row_picture;
          "google_id" := row_google_id;
          "last_login" := JStr last_login ]}.

Definition upsert_options : jsval := JObj {[ "onConflict" := JStr "email" ]}.

Arguments token_params : simpl never.
Arguments userinfo_headers : simpl never.
Arguments upsert_row : simpl never.
Arguments upsert_options : simpl never.

(** The body of the [try] block of the callback. *)
Definition callback_try (cfg : EnvConfig) (w : World) (code : jsval) : M Response :=
  (* 1. Exchange code for access token *)
  tokenResponse ← axios_post w token_endpoint (token_params cfg code);
  access_token ← destructure_prop (data tokenResponse) "access_token" "tokenResponse.data";
  (* 2. Get user info *)
  bearer ← to_string access_token;
  userResponse ← axios_get w userinfo_endpoint (userinfo_headers bearer);
  let user := data userResponse in
  (* the log line reads user.email and user.name *)
  _ ← read_prop user "email";
  _ ← read_prop user "name";
  (* 3. Insert/update in Supabase *)
  row_email ← read_prop user "email";
  row_name ← read_prop user "name";
  row_picture ← read_prop user "picture";
  row_google_id ← read_prop user "id";
  upserted ← supabase_upsert w "users"
    (upsert_row row_email row_name row_picture row_google_id (now w)) upsert_options;
  _ ← destructure_prop upserted "data" "(intermediate value)";
  supabaseError ← destructure_prop upserted "error" "(intermediate value)";
  if js_truthy supabaseError then
    (* the log line and the page read supabaseError.message and .hint *)
    supabaseError_message ← read_prop supabaseError "message";
    supabaseError_hint ← read_prop supabaseError "hint";
    message_text ← to_string supabaseError_message;
    hint_text ← to_string (js_or supabaseError_hint
                                 (JStr "Check your Supabase table configuration"));
    mret (Send 500 (page_database_error message_text hint_text))
  else
    (* 4. Store user in memory *)
    user_id ← read_prop user "id";
    user_email ← read_prop user "email";
    user_name ← read_prop user "name";
    user_picture ← read_prop user "picture";
    set_currentUser (Some {| id := user_id; email := user_email;
                             name := user_name; picture := user_picture |});;
    (* the log line reads user.email *)
    _ ← read_prop user "email";
    mret (res_redirect "/").

(** [GET /auth/google/callback] *)
Definition callback_handler (cfg : EnvConfig) (w : World) (query : gmap string jsval)
  : M Response :=
  let code := obj_get query "code" in
  let error := obj_get query "error" in
  if js_truthy error then
    error_text ← to_string error;
    mret (Send 400 (page_oauth_error error_text))
  else if negb (js_truthy code) then
    mret (Send 400 page_no_code)
  else
    try_catch (callback_try cfg w code)
              (fun err =>
                 err_message ← to_string (message err);
                 mret (Send 500 (page_auth_failed err_message))).

(** [GET /logout] *)
Definition logout_handler : M Response :=
  currentUser ← get_currentUser;
  (if authenticated currentUser then set_currentUser None else mret tt);;
  mret (res_send page_logged_out).

(** [GET /profile] *)
Definition profile_handler (w : World) : M Response :=
  currentUser ← get_currentUser;
  match currentUser with
  | None =>
      mret (SendJson 401
              (JObj {[ "error" := JStr "Unauthorized";
                       "message" := JStr "Please log in first";
                       "loginUrl" := JStr "/auth/google" ]}))
  | Some u =>
      mret (res_json
              (JObj {[ "message" := JStr "This is a protected route";
                       "user" := user_object u;
                       "timestamp" := JStr (now w) ]}))
  end.

(** [GET /health] *)
Definition health_handler (cfg : EnvConfig) (w : World) : M Response :=
  currentUser ← get_currentUser;
  mret (res_json
          (JObj {[ "status" := JStr "OK";
                   "timestamp" := JStr (now w);
                   "environment" := nodeEnv (server cfg);
                   "authenticated" := JBool (authenticated currentUser);
                   "config" :=
                     JObj {[ "port" := port (server cfg);
                             "hasDatabase" := JBool (js_truthy (url (database cfg)));
                             "hasGoogleOAuth" :=
                               JBool (js_truthy (clientId (google (oauth cfg)))) ]} ]})).

(** The route Express selects for a request that reaches the routes;
    [Unmatched] is any other method or path.  A request reaches the
    routes when the two middlewares before them let it through: one
    whose body [express.json] cannot parse goes to the error-handling
    middleware instead, and one that [express.static] answers from a
    file under [public/] reaches none of them. *)
Inductive Route :=
| GetHome
| GetAuthGoogle
| GetCallback
| GetLogout
| GetProfile
| GetHealth
| Unmatched.

Record Request := {
  route : Route;
  query : gmap string jsval
}.

Definition route_handler (cfg : EnvConfig) (w : World) (req : Request) : M Response :=
  match route req with
  | GetHome => home_handler
  | GetAuthGoogle => auth_google_handler cfg
  | GetCallback => callback_handler cfg w (query req)
  | GetLogout => logout_handler
  | GetProfile => profile_handler w
  | GetHealth => health_handler cfg w
  | Unmatched => mret (Send 404 page_not_found)
  end.

(** What Express 4 makes of the end of a handler.  What a handler
    throws while it runs goes to the error-handling middleware, which
    answers with its page.  The callback handler is an [async] function:
    what it throws rejects its promise, which Express does not look at,
    and nothing is answered to the request. *)
Definition answer_of (r : Route) (outcome : Result Response) : Response :=
  match outcome with
  | Ok res => res
  | Thrown _ =>
      match r with
      | GetCallback => NoResponse
      | _ => Send 500 page_unhandled
      end
  end.

(** One request served by the application: the handler of the route,
    and what becomes of its outcome. *)
Definition serve (cfg : EnvConfig) (w : World) (req : Request) (currentUser : Session)
  : Response * Session * list Event :=
  match route_handler cfg w req currentUser with
  | (outcome, s, t) => (answer_of (route req) outcome, s, t)
  end.

(** ** Text of a page *)

(** [needle] occurs in [text]. *)
Definition contains (needle text : string) : Prop :=
  exists before after, text = before +:+ needle +:+ after.

(** ** The runs of the callback handler *)

(** The text shown in place of a missing hint. *)
Definition default_hint : jsval := JStr "Check your Supabase table configuration".

(** Every way a callback request can go, with the answer, the content
    of the session slot afterwards and the outbound calls made. *)
Section CallbackRuns.
Variables (cfg : EnvConfig) (w : World) (q : gmap string jsval) (s : Session).

Let code := obj_get q "code".
Let error := obj_get q "error".
Let token_answer := net_post w token_endpoint (token_params cfg code).
Let token_call := AxiosPost token_endpoint (token_params cfg code) token_answer.
Let userinfo_answer (bearer : string) :=
  net_get w userinfo_endpoint (userinfo_headers bearer).
Let userinfo_call (bearer : string) :=
  AxiosGet userinfo_endpoint (userinfo_headers bearer) (userinfo_answer bearer).
Let row (e n p i : jsval) := upsert_row e n p i (now w).
Let upsert_answer (e n p i : jsval) := store_upsert w "users" (row e n p i) upsert_options.
Let upsert_call (e n p i : jsval) :=
  SupabaseUpsert "users" (row e n p i) upsert_options (upsert_answer e n p i).

Inductive CallbackRun : Response -> Session -> list Event -> Prop :=
| run_provider_error error_text :
    js_truthy error = true ->
    js_to_string error = Some error_text ->
    CallbackRun (Send 400 (page_oauth_error error_text)) s []
| run_provider_error_unprintable :
    js_truthy error = true ->
    js_to_string error = None ->
    CallbackRun NoResponse s []
| run_no_code :
    js_truthy error = false -> js_truthy code = false ->
    CallbackRun (Send 400 page_no_code) s []
| run_token_rejected err err_message :
    js_truthy error = false -> js_truthy code = true ->
    axios_settle token_answer = Thrown err ->
    js_to_string (message err) = Some err_message ->
    CallbackRun (Send 500 (page_auth_failed err_message)) s [token_call]
| run_token_unreadable tokenResponse :
    js_truthy error = false -> js_truthy code = true ->
    axios_settle token_answer = Ok tokenResponse ->
    js_get (data tokenResponse) "access_token" = None ->
    CallbackRun
      (Send 500 (page_auth_failed
         (destructure_error_text (data tokenResponse) "access_token" "tokenResponse.data")))
      s [token_call]
| run_token_unprintable tokenResponse access_token :
    js_truthy error = false -> js_truthy code = true ->
    axios_settle token_answer = Ok tokenResponse ->
    js_get (data tokenResponse) "access_token" = Some access_token ->
    js_to_string access_token = None ->
    CallbackRun (Send 500 (page_auth_failed unprintable)) s [token_call]
| run_userinfo_rejected tokenResponse access_token bearer err err_message :
    js_truthy error = false -> js_truthy code = true ->
    axios_settle token_answer = Ok tokenResponse ->
    js_get (data tokenResponse) "access_token" = Some access_token ->
    js_to_string access_token = Some bearer ->
    axios_settle (userinfo_answer bearer) = Thrown err ->
    js_to_string (message err) = Some err_message ->
    CallbackRun (Send 500 (page_auth_failed err_message)) s
      [token_call; userinfo_call bearer]
| run_userinfo_unreadable tokenResponse access_token bearer userResponse :
    js_truthy error = false -> js_truthy code = true ->
    axios_settle token_answer = Ok tokenResponse ->
    js_get (data tokenResponse) "access_token" = Some access_token ->
    js_to_string access_token = Some bearer ->
    axios_settle (userinfo_answer bearer) = Ok userResponse ->
    js_get (data userResponse) "email" = None ->
    CallbackRun
      (Send 500 (page_auth_failed (read_error_text (data userResponse) "email")))
      s [token_call; userinfo_call bearer]
| run_upsert_rejected tokenResponse access_token bearer userResponse e n p i err err_message :
    js_truthy error = false -> js_truthy code = true ->
    axios_settle token_answer = Ok tokenResponse ->
    js_get (data tokenResponse) "access_token" = Some access_token ->
    js_to_string access_token = Some bearer ->
    axios_settle (userinfo_answer bearer) = Ok userResponse ->
    js_get (data userResponse) "email" = Some e ->
    js_get (data userResponse) "name" = Some n ->
    js_get (data userResponse) "picture" = Some p ->
    js_get (data userResponse) "id" = Some i ->
    upsert_answer e n p i = Thrown err ->
    js_to_string (message err) = Some err_message ->
    CallbackRun (Send 500 (page_auth_failed err_message)) s
      [token_call; userinfo_call bearer; upsert_call e n p i]
| run_upsert_rejected_unprintable tokenResponse access_token bearer userResponse e n p i err :
    js_truthy error = false -> js_truthy code = true ->
    axios_settle token_answer = Ok tokenResponse ->
    js_get (data tokenResponse) "access_token" = Some access_token ->
    js_to_string access_token = Some bearer ->
    axios_settle (userinfo_answer bearer) = Ok userResponse ->
    js_get (data userResponse) "email" = Some e ->
    js_get (data userResponse) "name" = Some n ->
    js_get (data userResponse) "picture" = Some p ->
    js_get (data userResponse) "id" = Some i ->
    upsert_answer e n p i = Thrown err ->
    js_to_string (message err) = None ->
    CallbackRun NoResponse s [token_call; userinfo_call bearer; upsert_call e n p i]
| run_upsert_unreadable tokenResponse access_token bearer userResponse e n p i upserted :
    js_truthy error = false -> js_truthy code = true ->
    axios_settle token_answer = Ok tokenResponse ->
    js_get (data tokenResponse) "access_token" = Some access_token ->
    js_to_string access_token = Some bearer ->
    axios_settle (userinfo_answer bearer) = Ok userResponse ->
    js_get (data userResponse) "email" = Some e ->
    js_get (data userResponse) "name" = Some n ->
    js_get (data userResponse) "picture" = Some p ->
    js_get (data userResponse) "id" = Some i ->
    upsert_answer e n p i = Ok upserted ->
    js_get upserted "data" = None ->
    CallbackRun
      (Send 500 (page_auth_failed
         (destructure_error_text upserted "data" "(intermediate value)")))
      s [token_call; userinfo_call bearer; upsert_call e n p i]
| run_store_error tokenResponse access_token bearer userResponse e n p i upserted
    supabaseError supabaseError_message supabaseError_hint message_text hint_text :
    js_truthy error = false -> js_truthy code = true ->
    axios_settle token_answer = Ok tokenResponse ->
    js_get (data tokenResponse) "access_token" = Some access_token ->
    js_to_string access_token = Some bearer ->
    axios_settle (userinfo_answer bearer) = Ok userResponse ->
    js_get (data userResponse) "email" = Some e ->
    js_get (data userResponse) "name" = Some n ->
    js_get (data userResponse) "picture" = Some p ->
    js_get (data userResponse) "id" = Some i ->
    upsert_answer e n p i = Ok upserted ->
    js_get upserted "error" = Some supabaseError ->
    js_truthy supabaseError = true ->
    js_get supabaseError "message" = Some supabaseError_message ->
    js_get supabaseError "hint" = Some supabaseError_hint ->
    js_to_string supabaseError_message = Some message_text ->
    js_to_string (js_or supabaseError_hint default_hint) = Some hint_text ->
    CallbackRun (Send 500 (page_database_error message_text hint_text)) s
      [token_call; userinfo_call bearer; upsert_call e n p i]
| run_store_error_unprintable tokenResponse access_token bearer userResponse e n p i upserted
    supabaseError supabaseError_message supabaseError_hint :
    js_truthy error = false -> js_truthy code = true ->
    axios_settle token_answer = Ok tokenResponse ->
    js_get (data tokenResponse) "access_token" = Some access_token ->
    js_to_string access_token = Some bearer ->
    axios_settle (userinfo_answer bearer) = Ok userResponse ->
    js_get (data userResponse) "email" = Some e ->
    js_get (data userResponse) "name" = Some n ->
    js_get (data userResponse) "picture" = Some p ->
    js_get (data userResponse) "id" = Some i ->
    upsert_answer e n p i = Ok upserted ->
    js_get upserted "error" = Some supabaseError ->
    js_truthy supabaseError = true ->
    js_get supabaseError "message" = Some supabaseError_message ->
    js_get supabaseError "hint" = Some supabaseError_hint ->
    js_to_string supabaseError_message = None
    \/ js_to_string (js_or supabaseError_hint default_hint) = None ->
    CallbackRun (Send 500 (page_auth_failed unprintable)) s
      [token_call; userinfo_call bearer; upsert_call e n p i]
| run_signed_in tokenResponse access_token bearer userResponse e n p i upserted supabaseError :
    js_truthy error = false -> js_truthy code = true ->
    axios_settle token_answer = Ok tokenResponse ->
    js_get (data tokenResponse) "access_token" = Some access_token ->
    js_to_string access_token = Some bearer ->
    axios_settle (userinfo_answer bearer) = Ok userResponse ->
    js_get (data userResponse) "email" = Some e ->
    js_get (data userResponse) "name" = Some n ->
    js_get (data userResponse) "picture" = Some p ->
    js_get (data userResponse) "id" = Some i ->
    upsert_answer e n p i = Ok upserted ->
    js_get upserted "error" = Some supabaseError ->
    js_truthy supabaseError = false ->
    CallbackRun (Redirect 302 "/")
      (Some {| id := i; email := e; name := n; picture := p |})
      [token_call; userinfo_call bearer; upsert_call e n p i].
End CallbackRuns.

(** [js_get] fails on a value either for every property or for none. *)
Lemma js_get_None v k k' : js_get v k = None -> js_get v k' = None.
Proof. by destruct v. Qed.

Lemma js_get_Some v k x k' : js_get v k = Some x -> exists y, js_get v k' = Some y.
Proof. destruct v; naive_solver. Qed.

Lemma js_get_truthy v k : js_truthy v = true -> exists y, js_get v k = Some y.
Proof. destruct v; naive_solver. Qed.

(** The message of an error of axios is a string. *)
Lemma axios_settle_message answer err :
  axios_settle answer = Thrown err -> exists text, message err = JStr text.
Proof.
  destruct answer as [reason|st d]; simpl.
  - intros [= <-]. by eexists.
  - destruct ((200 <=? st) && (st <? 300)); intros [= <-]. by eexists.
Qed.

(** The handler always ends, and its run is one of [CallbackRun]; no
    response is sent only when the handler lets an exception out. *)
Lemma callback_run cfg w q s :
  exists outcome s' t,
    callback_handler cfg w q s = (outcome, s', t)
    /\ CallbackRun cfg w q s (answer_of GetCallback outcome) s' t
    /\ (answer_of GetCallback outcome = NoResponse <-> exists err, outcome = Thrown err).
Proof.
  assert (forall page st, Send st page = NoResponse <-> exists err : JsError,
                            @Ok Response (Send st page) = Thrown err) as Hsend
    by (intros page st; split; [intros [=]|intros [err [=]]]).
  assert (forall st target, Redirect st target = NoResponse <-> exists err : JsError,
                            @Ok Response (Redirect st target) = Thrown err) as Hredirect
    by (intros st target; split; [intros [=]|intros [err [=]]]).
  assert (forall e : JsError, NoResponse = NoResponse <-> exists err : JsError,
                            @Thrown Response e = Thrown err) as Hthrown
    by (intros e; split; [by eexists|done]).
  unfold callback_handler.
  destruct (js_truthy (obj_get q "error")) eqn:Herr.
  { unfold mbind, M_bind, to_string.
    destruct (js_to_string (obj_get q "error")) as [error_text|] eqn:Htext;
      eexists _, _, _; (split; [reflexivity|]); simpl; (split; [|done]).
    - by apply run_provider_error.
    - by apply run_provider_error_unprintable. }
  destruct (js_truthy (obj_get q "code")) eqn:Hcode; simpl.
  2: { eexists _, _, _; split; [reflexivity|]. split; [by constructor|apply Hsend]. }
  unfold try_catch, callback_try, mbind, M_bind, axios_post, axios_get, supabase_upsert,
    destructure_prop, read_prop, to_string.
  destruct (axios_settle (net_post w token_endpoint (token_params cfg (obj_get q "code"))))
    as [tokenResponse|err] eqn:Htoken.
  2: { destruct (axios_settle_message _ _ Htoken) as [text Hmessage]. rewrite Hmessage.
       eexists _, _, _; split; [reflexivity|]. simpl. split; [|apply Hsend].
       eapply run_token_rejected; eauto. by rewrite Hmessage. }
  destruct (js_get (data tokenResponse) "access_token") as [access_token|] eqn:Hat.
  2: { eexists _, _, _; split; [reflexivity|]. split; [|apply Hsend].
       by apply run_token_unreadable. }
  simpl.
  destruct (js_to_string access_token) as [bearer|] eqn:Hbearer.
  2: { eexists _, _, _; split; [reflexivity|]. split; [|apply Hsend].
       by eapply run_token_unprintable. }
  simpl.
  destruct (axios_settle (net_get w userinfo_endpoint (userinfo_headers bearer)))
    as [userResponse|err] eqn:Huser.
  2: { destruct (axios_settle_message _ _ Huser) as [text Hmessage]. rewrite Hmessage.
       eexists _, _, _; split; [reflexivity|]. simpl. split; [|apply Hsend].
       eapply run_userinfo_rejected; eauto. by rewrite Hmessage. }
  destruct (js_get (data userResponse) "email") as [e|] eqn:He.
  2: { eexists _, _, _; split; [reflexivity|]. split; [|apply Hsend].
       by eapply run_userinfo_unreadable. }
  destruct (js_get_Some _ _ _ "name" He) as [n Hn].
  destruct (js_get_Some _ _ _ "picture" He) as [p Hp].
  destruct (js_get_Some _ _ _ "id" He) as [i Hi].
  rewrite Hn, Hp, Hi. simpl.
  destruct (store_upsert w "users" (upsert_row e n p i (now w)) upsert_options)
    as [upserted|err] eqn:Hup.
  2: { destruct (js_to_string (message err)) as [err_message|] eqn:Hmessage;
         eexists _, _, _; (split; [reflexivity|]); simpl; rewrite <- Hup.
       - split; [|apply Hsend]. by eapply run_upsert_rejected.
       - split; [|apply Hthrown]. by eapply run_upsert_rejected_unprintable. }
  destruct (js_get upserted "data") as [d|] eqn:Hd.
  2: { eexists _, _, _; split; [reflexivity|]. simpl. rewrite <- Hup.
       split; [|apply Hsend]. by eapply run_upsert_unreadable. }
  destruct (js_get_Some _ _ _ "error" Hd) as [supabaseError Hse].
  rewrite Hse. simpl.
  destruct (js_truthy supabaseError) eqn:Htruthy.
  - destruct (js_get_truthy _ "message" Htruthy) as [m Hm].
    destruct (js_get_truthy _ "hint" Htruthy) as [h Hh].
    rewrite Hm, Hh. simpl.
    destruct (js_to_string m) as [message_text|] eqn:Hmt.
    2: { eexists _, _, _; split; [reflexivity|]. simpl. rewrite <- Hup.
         split; [|apply Hsend]. eapply run_store_error_unprintable; eauto. }
    simpl.
    destruct (js_to_string (js_or h (JStr "Check your Supabase table configuration")))
      as [hint_text|] eqn:Hht.
    2: { eexists _, _, _; split; [reflexivity|]. simpl. rewrite <- Hup.
         split; [|apply Hsend]. eapply run_store_error_unprintable; eauto. }
    eexists _, _, _; split; [reflexivity|]. simpl. rewrite <- Hup.
    split; [|apply Hsend]. by eapply run_store_error.
  - simpl.
    eexists _, _, _; split; [reflexivity|]. simpl. rewrite <- Hup.
    split; [|apply Hredirect]. by eapply run_signed_in.
Qed.

Lemma serve_callback cfg w q s :
  exists res s' t,
    serve cfg w {| route := GetCallback; query := q |} s = (res, s', t)
    /\ CallbackRun cfg w q s res s' t.
Proof.
  destruct (callback_run cfg w q s) as (outcome & s' & t & Heq & Hrun & _).
  exists (answer_of GetCallback outcome), s', t. split; [|done].
  unfold serve, route_handler. simpl. by rewrite Heq.
Qed.

(** axios fulfils the promise exactly on a 2xx answer. *)
Definition net_failure (answer : NetResult) : Prop :=
  match answer with
  | TransportFailure _ => True
  | HttpResponse st _ => ~ (200 <= st < 300)
  end.

Lemma axios_settle_Ok answer r :
  axios_settle answer = Ok r ->
  answer = HttpResponse (status r) (data r) /\ 200 <= status r < 300.
Proof.
  destruct answer as [reason|st d]; simpl; [done|].
  destruct (200 <=? st) eqn:H1, (st <? 300) eqn:H2; simpl; intros [= <-]; simpl.
  split; [done|lia].
Qed.

Lemma axios_settle_failure answer :
  net_failure answer -> exists err, axios_settle answer = Thrown err.
Proof.
  destruct answer as [reason|st d]; simpl; [by eexists|].
  intros Hst. destruct (200 <=? st) eqn:H1, (st <? 300) eqn:H2; simpl; try by eexists.
  lia.
Qed.

Lemma axios_settle_Thrown answer err :
  axios_settle answer = Thrown err -> net_failure answer.
Proof.
  destruct answer as [reason|st d]; simpl; [done|].
  destruct (200 <=? st) eqn:H1, (st <? 300) eqn:H2; simpl; [done|lia..].
Qed.

(** *** Occurrences in a page *)

Lemma string_app_nil_r (a : string) : a +:+ "" = a.
Proof.
  induction a as [|c a IH]; [done|].
  change (String c (a +:+ "") = String c a). by rewrite IH.
Qed.

Lemma string_app_assoc (a b c : string) : (a +:+ b) +:+ c = a +:+ b +:+ c.
Proof.
  induction a as [|x a IH]; [done|].
  change (String x ((a +:+ b) +:+ c) = String x (a +:+ b +:+ c)). by rewrite IH.
Qed.

Lemma contains_refl n : contains n n.
Proof. exists "", "". by rewrite string_app_nil_r. Qed.

Lemma contains_app_l n a b : contains n a -> contains n (a +:+ b).
Proof.
  intros (x & y & ->). exists x, (y +:+ b). by rewrite !string_app_assoc.
Qed.

Lemma contains_app_r n a b : contains n b -> contains n (a +:+ b).
Proof.
  intros (x & y & ->). exists (a +:+ x), y. by rewrite !string_app_assoc.
Qed.

Lemma contains_template n l lines :
  l ∈ lines -> contains n l -> contains n (template lines).
Proof.
  intros Hin Hl. unfold template.
  induction Hin as [l lines|l l' lines Hin IH]; cbn [foldr].
  - by apply contains_app_r, contains_app_l.
  - apply contains_app_r, contains_app_r. by apply IH.
Qed.

(** Finds an interpolated value in the text of a page. *)
Ltac find_in_page :=
  lazymatch goal with
  | |- contains ?n ?n => apply contains_refl
  | |- contains ?n (?a +:+ ?b) =>
      first [ apply contains_app_l; find_in_page | apply contains_app_r; find_in_page ]
  end.

Lemma page_auth_failed_message text : contains text (page_auth_failed text).
Proof. unfold page_auth_failed, template. cbn [foldr]. find_in_page. Qed.





(** *** Deciding occurrence *)





(** Membership in the trace of a run, one event at a time. *)
Ltac trace_cases H :=
  repeat match type of H with
  | _ ∈ [] => by apply not_elem_of_nil in H
  | _ ∈ _ :: _ => apply elem_of_cons in H as [H|H]
  end; simplify_eq.

(** Brings together what a run says about one answer or one value. *)
Ltac run_facts :=
  repeat match goal with
  | H1 : ?x = ?r, H2 : Ok _ = ?x |- _ => rewrite H1 in H2; simplify_eq
  | H1 : ?x = ?r, H2 : Thrown _ = ?x |- _ => rewrite H1 in H2; simplify_eq
  | H1 : js_get ?v ?k1 = None, H2 : js_get ?v ?k2 = Some _ |- _ =>
      pose proof (js_get_None v k1 k2 H1); congruence
  | H1 : js_get ?v ?k = Some _, H2 : js_get ?v ?k = Some _ |- _ =>
      rewrite H1 in H2; simplify_eq
  | H1 : js_truthy ?v = true, H2 : js_truthy ?v = false |- _ => congruence
  end.

(** ** Scenarios *)

(** Concrete environments, worlds and requests on which the statements
    below are exercised. *)
Module Scenario.

Definition env_complete : gmap string string :=
  {[ "SUPABASE_URL" := "https://cvrio.supabase.co";
     "SUPABASE_ANON_KEY" := "anon-key";
     "GOOGLE_CLIENT_ID" := "client-id";
     "GOOGLE_CLIENT_SECRET" := "client-secret" ]}.

(** No Google secret, and an empty database key. *)
Definition env_incomplete : gmap string string :=
  {[ "SUPABASE_URL" := "https://cvrio.supabase.co";
     "SUPABASE_ANON_KEY" := "";
     "GOOGLE_CLIENT_ID" := "client-id" ]}.

Definition cfg : EnvConfig := envConfig env_complete.

Definition token_body : jsval := JObj {[ "access_token" := JStr "t1" ]}.

Definition profile_body : jsval :=
  JObj {[ "id" := JStr "1"; "email" := JStr "a@b.com";
          "name" := JStr "A"; "picture" := JStr "p" ]}.

Definition user_a : AuthenticatedUser :=
  {| id := JStr "1"; email := JStr "a@b.com"; name := JStr "A"; picture := JStr "p" |}.

Definition user_b : AuthenticatedUser :=
  {| id := JStr "2"; email := JStr "b@c.org"; name := JStr "B"; picture := JStr "q" |}.

(** The provider answers both calls and the store accepts the row. *)
Definition world_ok : World :=
  {| net_post := fun _ _ => HttpResponse 200 token_body;
     net_get := fun _ _ => HttpResponse 200 profile_body;
     store_upsert := fun _ _ _ => Ok (JObj {[ "data" := JNull; "error" := JNull ]});
     now := "2025-01-01T00:00:00.000Z" |}.

Definition store_error : jsval :=
  JObj {[ "message" := JStr "relation public.users does not exist";
          "hint" := JStr "Create the users table";
          "code" := JStr "42P01" ]}.

(** The store rejects the row. *)
Definition world_store_error : World :=
  {| net_post := fun _ _ => HttpResponse 200 token_body;
     net_get := fun _ _ => HttpResponse 200 profile_body;
     store_upsert := fun _ _ _ => Ok (JObj {[ "data" := JNull; "error" := store_error ]});
     now := "2025-01-01T00:00:00.000Z" |}.

(** The token endpoint cannot be reached. *)
Definition world_provider_down : World :=
  {| net_post := fun _ _ => TransportFailure "connect ECONNREFUSED";
     net_get := fun _ _ => HttpResponse 200 profile_body;
     store_upsert := fun _ _ _ => Ok (JObj {[ "data" := JNull; "error" := JNull ]});
     now := "2025-01-01T00:00:00.000Z" |}.

(** The userinfo endpoint refuses the token. *)
Definition world_userinfo_401 : World :=
  {| net_post := fun _ _ => HttpResponse 200 token_body;
     net_get := fun _ _ => HttpResponse 401 (JObj {[ "error" := JStr "invalid_token" ]});
     store_upsert := fun _ _ _ => Ok (JObj {[ "data" := JNull; "error" := JNull ]});
     now := "2025-01-01T00:00:00.000Z" |}.

Definition callback_with (q : gmap string jsval) : Request :=
  {| route := GetCallback; query := q |}.

Definition get (r : Route) : Request := {| route := r; query := ∅ |}.

(** [?code=abc] *)
Definition query_code : gmap string jsval := {[ "code" := JStr "abc" ]}.

(** [?error=access_denied&code=abc] *)
Definition query_error_and_code : gmap string jsval :=
  {[ "error" := JStr "access_denied"; "code" := JStr "abc" ]}.


End Scenario.

(** Values that cannot be printed, and worlds that answer with them. *)
Module Unprintable.

(** The object [{ toString: 'x' }], as [?error[toString]=x] gives it. *)
Definition object : jsval := JObj {[ "toString" := JStr "x" ]}.

(** [?error[toString]=x&code=abc] *)
Definition query_object_error : gmap string jsval :=
  {[ "error" := object; "code" := JStr "abc" ]}.

Definition store_error : jsval :=
  JObj {[ "message" := JStr "permission denied"; "hint" := object ]}.

(** The store rejects the row with a hint that is such an object. *)
Definition world_store_error : World :=
  {| net_post := fun _ _ => HttpResponse 200 Scenario.token_body;
     net_get := fun _ _ => HttpResponse 200 Scenario.profile_body;
     store_upsert := fun _ _ _ => Ok (JObj {[ "data" := JNull; "error" := store_error ]});
     now := "2025-01-01T00:00:00.000Z" |}.

(** The token endpoint answers 200 with such an object as access
    token. *)
Definition world_object_token : World :=
  {| net_post := fun _ _ => HttpResponse 200 (JObj {[ "access_token" := object ]});
     net_get := fun _ _ => HttpResponse 200 Scenario.profile_body;
     store_upsert := fun _ _ _ => Ok (JObj {[ "data" := JNull; "error" := JNull ]});
     now := "2025-01-01T00:00:00.000Z" |}.

(** A user whose name is such an object. *)
Definition user : AuthenticatedUser :=
  {| id := JStr "3"; email := JStr "c@d.net"; name := object; picture := JStr "r" |}.

End Unprintable.

(** ** Properties *)




(** The upsert of a run went through: the store answered, with no
    error in its answer. *)
Definition upsert_succeeded (t : list Event) : Prop :=
  exists table row options upserted supabaseError,
    SupabaseUpsert table row options (Ok upserted) ∈ t
    /\ js_get upserted "error" = Some supabaseError
    /\ js_truthy supabaseError = false.

(** C2. The callback replaces the content of the session slot, with
    the id, email, name and picture of the profile the userinfo endpoint
    returned, only when the upsert has succeeded, and then redirects
    (302) to the home page; [/profile] afterwards answers 200 with that
    same user.  Without a successful upsert the slot keeps its content
    and the answer is no redirect. *)
Theorem callback_session_commit cfg w q s res s' t :
  serve cfg w {| route := GetCallback; query := q |} s = (res, s', t) ->
  (upsert_succeeded t ->
   exists url headers st profile u,
     AxiosGet url headers (HttpResponse st profile) ∈ t
     /\ js_get profile "id" = Some (id u)
     /\ js_get profile "email" = Some (email u)
     /\ js_get profile "name" = Some (name u)
     /\ js_get profile "picture" = Some (picture u)
     /\ s' = Some u
     /\ res = Redirect 302 "/"
     /\ forall w2 q2, exists body,
          serve cfg w2 {| route := GetProfile; query := q2 |} s'
          = (SendJson 200 (JObj body), s', [])
          /\ body !! "user"
             = Some (JObj {[ "id" := id u; "email" := email u;
                             "name" := name u; "picture" := picture u ]}))
  /\ (~ upsert_succeeded t -> s' = s /\ status_of res <> 302).
Proof.
  intros Hserve.
  destruct (serve_callback cfg w q s) as (res0 & s0 & t0 & Heq & Hrun).
  rewrite Hserve in Heq. simplify_eq. split.
  - intros (table & row & options & upserted & supabaseError & Hin & Herror & Hfalsy).
    destruct Hrun; trace_cases Hin; run_facts.
    match goal with
    | H : axios_settle (net_get _ _ _) = Ok ?r |- _ =>
        destruct (axios_settle_Ok _ _ H) as [Hanswer _]
    end.
    eexists _, _, _, _, {| id := i; email := e; name := n; picture := p |}.
    split; [rewrite <- Hanswer; right; left|].
    repeat split; try done.
    intros w2 q2. eexists. split; [reflexivity|]. by simplify_map_eq.
  - intros Hnot. destruct Hrun; try done.
    destruct Hnot.
    match goal with H : store_upsert _ _ _ _ = Ok _ |- _ => rewrite H end.
    eexists _, _, _, _, _. split; [right; right; left|]. eauto.
Qed.

Lemma callback_session_commit_witness :
  serve Scenario.cfg Scenario.world_ok (Scenario.callback_with Scenario.query_code) None
  = (Redirect 302 "/", Some Scenario.user_a,
     [ AxiosPost token_endpoint (token_params Scenario.cfg (JStr "abc"))
         (HttpResponse 200 Scenario.token_body);
       AxiosGet userinfo_endpoint (userinfo_headers "t1")
         (HttpResponse 200 Scenario.profile_body);
       SupabaseUpsert "users"
         (upsert_row (JStr "a@b.com") (JStr "A") (JStr "p") (JStr "1")
            "2025-01-01T00:00:00.000Z")
         upsert_options
         (Ok (JObj {[ "data" := JNull; "error" := JNull ]})) ])
  /\ exists body,
       serve Scenario.cfg Scenario.world_ok (Scenario.get GetProfile) (Some Scenario.user_a)
       = (SendJson 200 (JObj body), Some Scenario.user_a, [])
       /\ body !! "user"
          = Some (JObj {[ "id" := JStr "1"; "email" := JStr "a@b.com";
                          "name" := JStr "A"; "picture" := JStr "p" ]}).
Proof.
  assert (Hrun : serve Scenario.cfg Scenario.world_ok
                   (Scenario.callback_with Scenario.query_code) None
                 = (Redirect 302 "/", Some Scenario.user_a,
                    [ AxiosPost token_endpoint (token_params Scenario.cfg (JStr "abc"))
                        (HttpResponse 200 Scenario.token_body);
                      AxiosGet userinfo_endpoint (userinfo_headers "t1")
                        (HttpResponse 200 Scenario.profile_body);
                      SupabaseUpsert "users"
                        (upsert_row (JStr "a@b.com") (JStr "A") (JStr "p") (JStr "1")
                           "2025-01-01T00:00:00.000Z")
                        upsert_options
                        (Ok (JObj {[ "data" := JNull; "error" := JNull ]})) ])).
  { vm_compute. reflexivity. }
  split; [exact Hrun|].
  destruct (callback_session_commit _ _ _ _ _ _ _ Hrun) as [Hcommit _].
  destruct Hcommit as (url & headers & st & profile & u & _ & _ & _ & _ & _ & Hu & _ & Hprofile).
  { eexists _, _, _, _, _. split; [right; right; left|]. split; [vm_compute; reflexivity|].
    reflexivity. }
  injection Hu as <-.
  exact (Hprofile Scenario.world_ok ∅).
Defined.

(** C5. When a call of the callback to the token endpoint or to the
    userinfo endpoint fails, by a transport failure or by an answer
    outside 200-299, the answer is a 500 whose page shows the message of
    the failure, and the session slot keeps its content. *)
Theorem callback_provider_failure cfg w q s res s' t url arg answer :
  serve cfg w {| route := GetCallback; query := q |} s = (res, s', t) ->
  AxiosPost url arg answer ∈ t \/ AxiosGet url arg answer ∈ t ->
  net_failure answer ->
  exists err err_message html,
    axios_settle answer = Thrown err
    /\ js_to_string (message err) = Some err_message
    /\ res = Send 500 html
    /\ contains err_message html
    /\ s' = s.
Proof.
  intros Hserve Hin Hfail.
  destruct (axios_settle_failure _ Hfail) as [err Herr].
  destruct (serve_callback cfg w q s) as (res0 & s0 & t0 & Heq & Hrun).
  rewrite Hserve in Heq. simplify_eq.
  exists err.
  destruct Hrun; destruct Hin as [Hin|Hin]; trace_cases Hin; try congruence.
  all: match goal with
       | H : axios_settle ?a = Thrown ?e |- _ => rewrite H in Herr; simplify_eq
       end.
  all: eexists _, _; repeat split; eauto using page_auth_failed_message.
Qed.

Lemma callback_provider_failure_witness :
  (exists err html,
     axios_settle (TransportFailure "connect ECONNREFUSED") = Thrown err
     /\ message err = JStr "connect ECONNREFUSED"
     /\ serve Scenario.cfg Scenario.world_provider_down
          (Scenario.callback_with Scenario.query_code) (Some Scenario.user_b)
        = (Send 500 html, Some Scenario.user_b,
           [ AxiosPost token_endpoint (token_params Scenario.cfg (JStr "abc"))
               (TransportFailure "connect ECONNREFUSED") ])
     /\ contains "connect ECONNREFUSED" html)
  /\ (exists err html,
        axios_settle (HttpResponse 401 (JObj {[ "error" := JStr "invalid_token" ]}))
        = Thrown err
        /\ serve Scenario.cfg Scenario.world_userinfo_401
             (Scenario.callback_with Scenario.query_code) None
           = (Send 500 html, None,
              [ AxiosPost token_endpoint (token_params Scenario.cfg (JStr "abc"))
                  (HttpResponse 200 Scenario.token_body);
                AxiosGet userinfo_endpoint (userinfo_headers "t1")
                  (HttpResponse 401 (JObj {[ "error" := JStr "invalid_token" ]})) ])
        /\ contains "Request failed with status code 401" html).
Proof.
  split.
  - edestruct (callback_provider_failure Scenario.cfg Scenario.world_provider_down
                 Scenario.query_code (Some Scenario.user_b))
      as (err & err_message & html & Herr & Hmessage & Hres & Hc & Hs).
    + vm_compute. reflexivity.
    + left. left.
    + exact I.
    + exists err, html. rewrite <- Hres. injection Herr as <-.
      injection Hmessage as <-. done.
  - edestruct (callback_provider_failure Scenario.cfg Scenario.world_userinfo_401
                 Scenario.query_code None)
      as (err & err_message & html & Herr & Hmessage & Hres & Hc & Hs).
    + vm_compute. reflexivity.
    + right. right. left.
    + simpl. lia.
    + exists err, html. rewrite <- Hres. vm_compute in Herr. injection Herr as <-.
      vm_compute in Hmessage. injection Hmessage as <-. done.
Defined.







(** *** Startup *)

(** The four required variables, in the order [validateConfig] tests
    them. *)
Definition required_variables : list string :=
  ["SUPABASE_URL"; "SUPABASE_ANON_KEY"; "GOOGLE_CLIENT_ID"; "GOOGLE_CLIENT_SECRET"].

(** A variable is set when the environment gives it a non-empty value;
    it is absent when it is undefined or the empty string. *)
Definition is_set (env : gmap string string) (k : string) : Prop :=
  exists v, env !! k = Some v /\ v <> "".

#[export] Instance is_set_dec env k : Decision (is_set env k).
Proof.
  unfold is_set. destruct (env !! k) as [v|].
  - destruct (decide (v = "")) as [->|Hne].
    + right. intros (v' & [= <-] & Hv). done.
    + left. by exists v.
  - right. by intros (v' & [=] & _).
Defined.

Lemma env_get_truthy env k : js_truthy (env_get env k) = bool_decide (is_set env k).
Proof.
  unfold env_get. symmetry. destruct (env !! k) as [v|] eqn:Hk; simpl.
  - destruct v as [|c v]; simpl.
    + apply bool_decide_eq_false. intros (v' & Hv' & Hne). rewrite Hk in Hv'. by simplify_eq.
    + apply bool_decide_eq_true. exists (String c v). by rewrite Hk.
  - apply bool_decide_eq_false. intros (v' & Hv' & _). by rewrite Hk in Hv'.
Qed.

Lemma push_if_missing_filter env k m :
  push_if_missing (env_get env k) k m = m ++ filter (fun k => ~ is_set env k) [k].
Proof.
  unfold push_if_missing. rewrite env_get_truthy, filter_cons, filter_nil.
  case_bool_decide; case_decide; try done. by rewrite app_nil_r.
Qed.

Lemma missingVars_filter env :
  missingVars (envConfig env) = filter (fun k => ~ is_set env k) required_variables.
Proof.
  unfold missingVars, required_variables. simpl.
  rewrite !push_if_missing_filter. simpl.
  change ["SUPABASE_URL"; "SUPABASE_ANON_KEY"; "GOOGLE_CLIENT_ID"; "GOOGLE_CLIENT_SECRET"]
    with ((((["SUPABASE_URL"] ++ ["SUPABASE_ANON_KEY"]) ++ ["GOOGLE_CLIENT_ID"])
           ++ ["GOOGLE_CLIENT_SECRET"])).
  by rewrite !filter_app.
Qed.

(** What startup does, by the required variables that are not set. *)
Lemma startup_by_missing env :
  startup env =
    if decide (filter (fun k => ~ is_set env k) required_variables = []) then
      ([ ConsoleLog ["✅ All required environment variables are set"] ],
       Listening (port (server (envConfig env))))
    else
      ([ ConsoleError ["❌ Missing required environment variables. Please check your .env file."];
         ConsoleLog ["Required variables:";
                     join ", " (filter (fun k => ~ is_set env k) required_variables)] ],
       Terminated 1).
Proof.
  unfold startup, validateConfig.
  rewrite missingVars_filter.
  destruct (filter (fun k => ~ is_set env k) required_variables) as [|k rest]; [done|].
  rewrite decide_False by done. simpl length.
  replace (0 <? Z.of_nat (S (length rest))) with true by (symmetry; apply Z.ltb_lt; lia).
  done.
Qed.

(** A process that listens has all four variables set. *)
Lemma startup_listening env out p :
  startup env = (out, Listening p) -> forall k, k ∈ required_variables -> is_set env k.
Proof.
  rewrite startup_by_missing. case_decide as Hmissing; [|done].
  intros _ k Hk. destruct (decide (is_set env k)) as [|Hno]; [done|].
  assert (k ∈ filter (fun k => ~ is_set env k) required_variables) as Hin
    by by apply list_elem_of_filter.
  rewrite Hmissing in Hin. by apply not_elem_of_nil in Hin.
Qed.

(** A name of the joined list occurs in its text. *)
Lemma join_contains sep k l : k ∈ l -> contains k (join sep l).
Proof.
  unfold join. induction 1 as [k l|k k' l Hin IH].
  - destruct l as [|k' l]; cbn [String.concat]; [apply contains_refl|].
    apply contains_app_l, contains_refl.
  - destruct l as [|k'' l]; [by apply not_elem_of_nil in Hin|].
    cbn [String.concat]. by apply contains_app_r, contains_app_r.
Qed.

(** C4. Startup validates the configuration.  With [missing] the
    required variables that are not set, in order: when there is one,
    the process reports them on the console and ends with exit status 1,
    without listening; when there is none, it goes on to listen on the
    configured port.  So a required variable that is undefined or empty
    ends the process, its name in the report, and four variables that
    are set let startup proceed. *)
Theorem startup_validates env :
  let missing := filter (fun k => ~ is_set env k) required_variables in
  (startup env =
     if decide (missing = []) then
       ([ ConsoleLog ["✅ All required environment variables are set"] ],
        Listening (port (server (envConfig env))))
     else
       ([ ConsoleError ["❌ Missing required environment variables. Please check your .env file."];
          ConsoleLog ["Required variables:"; join ", " missing] ],
        Terminated 1))
  /\ (forall k, k ∈ required_variables ->
       env !! k = None \/ env !! k = Some "" ->
       exists report,
         startup env =
           ([ ConsoleError ["❌ Missing required environment variables. Please check your .env file."];
              ConsoleLog ["Required variables:"; report] ],
            Terminated 1)
         /\ contains k report)
  /\ ((forall k, k ∈ required_variables -> is_set env k) ->
      startup env =
        ([ ConsoleLog ["✅ All required environment variables are set"] ],
         Listening (port (server (envConfig env))))).
Proof.
  intros missing. split; [apply startup_by_missing|]. split.
  - intros k Hk Habsent.
    assert (k ∈ missing) as Hin.
    { apply list_elem_of_filter. split; [|done].
      intros (v & Hv & Hne). destruct Habsent as [Hnone|Hempty]; congruence. }
    exists (join ", " missing). split; [|by apply join_contains].
    rewrite startup_by_missing. fold missing.
    rewrite decide_False; [done|]. intros Hnil. rewrite Hnil in Hin.
    by apply not_elem_of_nil in Hin.
  - intros Hall. rewrite startup_by_missing. fold missing.
    rewrite decide_True; [done|].
    destruct missing as [|k rest] eqn:Hmissing; [done|].
    assert (k ∈ missing) as Hin by (rewrite Hmissing; left).
    apply list_elem_of_filter in Hin as [Hno Hk]. destruct Hno. by apply Hall.
Qed.

Lemma startup_validates_witness :
  (exists report,
     startup Scenario.env_incomplete
     = ([ ConsoleError ["❌ Missing required environment variables. Please check your .env file."];
          ConsoleLog ["Required variables:"; report] ],
        Terminated 1)
     /\ contains "GOOGLE_CLIENT_SECRET" report)
  /\ startup Scenario.env_complete
     = ([ ConsoleLog ["✅ All required environment variables are set"] ],
        Listening (JNum "3000")).
Proof.
  split.
  - apply (startup_validates Scenario.env_incomplete).
    + unfold required_variables. do 3 right. left.
    + left. vm_compute. reflexivity.
  - apply (startup_validates Scenario.env_complete).
    intros k Hk. unfold required_variables in Hk.
    repeat (apply elem_of_cons in Hk as [->|Hk]);
      [eexists; split; [vm_compute; reflexivity|discriminate]..|].
    by apply not_elem_of_nil in Hk.
Defined.

(** The report of the incomplete environment, as printed. *)
Example startup_incomplete_report :
  startup Scenario.env_incomplete
  = ([ ConsoleError ["❌ Missing required environment variables. Please check your .env file."];
       ConsoleLog ["Required variables:"; "SUPABASE_ANON_KEY, GOOGLE_CLIENT_SECRET"] ],
     Terminated 1).
Proof. vm_compute. reflexivity. Qed.

(** *** The JSON routes *)

(** C6. [/profile] answers 401 with a JSON body of [error], [message]
    and [loginUrl] when the session slot is empty, and 200 with a JSON
    body of [message], [user] and [timestamp], [user] being the user in
    the slot, when it is occupied. *)
Theorem profile_response cfg w q :
  (exists body,
     serve cfg w {| route := GetProfile; query := q |} None
     = (SendJson 401 (JObj body), None, [])
     /\ dom body = {[ "error"; "message"; "loginUrl" ]}
     /\ body !! "error" = Some (JStr "Unauthorized")
     /\ body !! "message" = Some (JStr "Please log in first")
     /\ body !! "loginUrl" = Some (JStr "/auth/google"))
  /\ (forall u, exists body,
        serve cfg w {| route := GetProfile; query := q |} (Some u)
        = (SendJson 200 (JObj body), Some u, [])
        /\ dom body = {[ "message"; "user"; "timestamp" ]}
        /\ body !! "message" = Some (JStr "This is a protected route")
        /\ body !! "user"
           = Some (JObj {[ "id" := id u; "email" := email u;
                           "name" := name u; "picture" := picture u ]})
        /\ body !! "timestamp" = Some (JStr (now w))).
Proof.
  split; [|intros u]; (eexists; split; [reflexivity|]).
  - split; [set_solver|]. by simplify_map_eq.
  - split; [set_solver|]. by simplify_map_eq.
Qed.

(** C7. [/logout] leaves the session slot empty, so that [/profile]
    served next answers 401, whatever the slot held before. *)
Theorem logout_then_profile cfg w1 w2 q1 q2 s :
  exists html body,
    serve cfg w1 {| route := GetLogout; query := q1 |} s = (Send 200 html, None, [])
    /\ serve cfg w2 {| route := GetProfile; query := q2 |}
         (snd (fst (serve cfg w1 {| route := GetLogout; query := q1 |} s)))
       = (SendJson 401 body, None, []).
Proof.
  destruct s as [u|]; eexists _, _; split; reflexivity.
Qed.

(** C8. [/health] answers 200 with a JSON body of [status],
    [timestamp], [environment], [authenticated] and [config], the last
    an object of [port], [hasDatabase] and [hasGoogleOAuth].
    [authenticated] tells whether the session slot is occupied;
    [hasDatabase] is true exactly when the database URL is set, and
    [hasGoogleOAuth] exactly when the Google client id is: on a process
    that listens, exactly when both Google credentials are. *)
Theorem health_response env w q s :
  exists body config hasDatabase hasGoogleOAuth,
    serve (envConfig env) w {| route := GetHealth; query := q |} s
    = (SendJson 200 (JObj body), s, [])
    /\ dom body = {[ "status"; "timestamp"; "environment"; "authenticated"; "config" ]}
    /\ body !! "status" = Some (JStr "OK")
    /\ body !! "timestamp" = Some (JStr (now w))
    /\ body !! "environment" = Some (nodeEnv (server (envConfig env)))
    /\ body !! "authenticated" = Some (JBool (bool_decide (is_Some s)))
    /\ body !! "config" = Some (JObj config)
    /\ dom config = {[ "port"; "hasDatabase"; "hasGoogleOAuth" ]}
    /\ config !! "port" = Some (port (server (envConfig env)))
    /\ config !! "hasDatabase" = Some (JBool hasDatabase)
    /\ (hasDatabase = true <-> is_set env "SUPABASE_URL")
    /\ config !! "hasGoogleOAuth" = Some (JBool hasGoogleOAuth)
    /\ (hasGoogleOAuth = true <-> is_set env "GOOGLE_CLIENT_ID")
    /\ (forall out p, startup env = (out, Listening p) ->
        (hasGoogleOAuth = true
         <-> is_set env "GOOGLE_CLIENT_ID" /\ is_set env "GOOGLE_CLIENT_SECRET")).
Proof.
  eexists _, _, _, _. split; [reflexivity|].
  split; [set_solver|].
  do 5 (split; [by destruct s; simplify_map_eq|]).
  split; [set_solver|].
  do 2 (split; [by simplify_map_eq|]).
  split; [simpl; rewrite env_get_truthy; apply bool_decide_eq_true|].
  split; [by simplify_map_eq|].
  split; [simpl; rewrite env_get_truthy; apply bool_decide_eq_true|].
  intros out p Hlisten. simpl. rewrite env_get_truthy, bool_decide_eq_true.
  pose proof (startup_listening env out p Hlisten "GOOGLE_CLIENT_SECRET") as Hsecret.
  split; [|tauto]. intros Hid. split; [done|]. apply Hsecret.
  unfold required_variables. set_solver.
Qed.

Lemma health_response_witness :
  exists body config hasGoogleOAuth,
    serve Scenario.cfg Scenario.world_ok (Scenario.get GetHealth) (Some Scenario.user_a)
    = (SendJson 200 (JObj body), Some Scenario.user_a, [])
    /\ body !! "authenticated" = Some (JBool true)
    /\ body !! "config" = Some (JObj config)
    /\ config !! "port" = Some (JNum "3000")
    /\ config !! "hasGoogleOAuth" = Some (JBool hasGoogleOAuth)
    /\ (hasGoogleOAuth = true
        <-> is_set Scenario.env_complete "GOOGLE_CLIENT_ID"
            /\ is_set Scenario.env_complete "GOOGLE_CLIENT_SECRET").
Proof.
  destruct (health_response Scenario.env_complete Scenario.world_ok ∅ (Some Scenario.user_a))
    as (body & config & hasDatabase & hasGoogleOAuth & Hserve & _ & _ & _ & _ & Hauth
        & Hconfig & _ & Hport & _ & _ & Hg & _ & Hlisten).
  exists body, config, hasGoogleOAuth.
  split; [exact Hserve|].
  split; [exact Hauth|].
  split; [exact Hconfig|].
  split; [exact Hport|].
  split; [exact Hg|].
  apply (Hlisten [ ConsoleLog ["✅ All required environment variables are set"] ] (JNum "3000")).
  vm_compute. reflexivity.
Defined.

(** *** The session slot across routes *)

(** The handlers that print values neither touch the session slot nor
    call out, whether they throw or not. *)
Lemma home_handler_run s : exists outcome, home_handler s = (outcome, s, []).
Proof.
  unfold home_handler, get_currentUser, mbind, M_bind, to_string.
  destruct s as [u|]; [|by eexists].
  destruct (js_to_string (name u)); [|by eexists]. simpl.
  destruct (js_to_string (picture u)); [|by eexists]. simpl.
  destruct (js_to_string (email u)); by eexists.
Qed.

Lemma auth_google_handler_run cfg s :
  exists outcome, auth_google_handler cfg s = (outcome, s, []).
Proof.
  unfold auth_google_handler, mbind, M_bind, to_string.
  destruct (js_to_string (clientId (google (oauth cfg)))); [|by eexists]. simpl.
  destruct (js_to_string (redirectUri (google (oauth cfg)))); by eexists.
Qed.

(** What a request to a route other than the callback and [/logout]
    leaves behind. *)
Lemma serve_frame cfg w r q s :
  r <> GetCallback -> r <> GetLogout ->
  exists res, serve cfg w {| route := r; query := q |} s = (res, s, []).
Proof.
  intros Hcallback Hlogout. unfold serve, route_handler. cbn [route query].
  destruct r; try done.
  - destruct (home_handler_run s) as [outcome ->]. by eexists.
  - destruct (auth_google_handler_run cfg s) as [outcome ->]. by eexists.
  - destruct s; by eexists.
  - by eexists.
  - by eexists.
Qed.

(** C10. [/], [/profile] and [/health] leave the session slot as it
    was.  Over all routes, a request changes the content of the slot
    only as a callback that ends in the redirect after a successful
    upsert, which fills it, or as [/logout], which empties it. *)
Theorem session_frame cfg w q s :
  snd (fst (serve cfg w {| route := GetHome; query := q |} s)) = s
  /\ snd (fst (serve cfg w {| route := GetProfile; query := q |} s)) = s
  /\ snd (fst (serve cfg w {| route := GetHealth; query := q |} s)) = s
  /\ forall r res s' t,
       serve cfg w {| route := r; query := q |} s = (res, s', t) ->
       s' <> s ->
       (r = GetCallback /\ res = Redirect 302 "/" /\ is_Some s' /\ upsert_succeeded t)
       \/ (r = GetLogout /\ s' = None).
Proof.
  split; [by destruct (serve_frame cfg w GetHome q s) as [res ->]|].
  split; [by destruct s|]. split; [done|].
  intros r res s' t Hserve Hne.
  destruct r;
    try (match type of Hserve with
         | serve _ _ {| route := ?r |} _ = _ =>
             destruct (serve_frame cfg w r q s) as [res' Heq]; [done|done|]
         end;
         rewrite Hserve in Heq; by simplify_eq).
  - left. split; [done|].
    destruct (serve_callback cfg w q s) as (res0 & s0 & t0 & Heq & Hrun).
    rewrite Hserve in Heq. simplify_eq.
    destruct Hrun; try done.
    repeat split; [done|].
    match goal with H : store_upsert _ _ _ _ = Ok _ |- _ => rewrite H end.
    eexists _, _, _, _, _. split; [right; right; left|]. eauto.
  - right. split; [done|].
    destruct s; unfold serve in Hserve; simpl in Hserve; by simplify_eq.
Qed.

Lemma session_frame_witness :
  (GetCallback = GetCallback
   /\ Redirect 302 "/" = Redirect 302 "/"
   /\ is_Some (Some Scenario.user_a)
   /\ upsert_succeeded
        [ AxiosPost token_endpoint (token_params Scenario.cfg (JStr "abc"))
            (HttpResponse 200 Scenario.token_body);
          AxiosGet userinfo_endpoint (userinfo_headers "t1")
            (HttpResponse 200 Scenario.profile_body);
          SupabaseUpsert "users"
            (upsert_row (JStr "a@b.com") (JStr "A") (JStr "p") (JStr "1")
               "2025-01-01T00:00:00.000Z")
            upsert_options
            (Ok (JObj {[ "data" := JNull; "error" := JNull ]})) ])
  \/ (GetCallback = GetLogout /\ Some Scenario.user_a = None).
Proof.
  destruct (session_frame Scenario.cfg Scenario.world_ok Scenario.query_code
              (Some Scenario.user_b)) as (_ & _ & _ & Honly).
  apply Honly.
  - vm_compute. reflexivity.
  - discriminate.
Defined.

(** * Further properties

    The rest of [src/auth.js]: the console lines around startup, the
    route that starts the OAuth flow, and how the handlers behave
    together. *)

(** ** Console lines around startup *)

(** [v ? 'SET' : 'NOT SET'] *)
Definition set_or_not (v : jsval) : string :=
  if js_truthy v then "SET" else "NOT SET".

(** Lines 8-12: the debug lines on the four variables, read from
    [process.env] before the configuration is built. *)
Definition debug_lines (env : gmap string string) : list ConsoleLine :=
  [ ConsoleLog ["🔍 Debug - Environment variables:"];
    ConsoleLog ["SUPABASE_URL:"; set_or_not (env_get env "SUPABASE_URL")];
    ConsoleLog ["SUPABASE_ANON_KEY:"; set_or_not (env_get env "SUPABASE_ANON_KEY")];
    ConsoleLog ["GOOGLE_CLIENT_ID:"; set_or_not (env_get env "GOOGLE_CLIENT_ID")];
    ConsoleLog ["GOOGLE_CLIENT_SECRET:"; set_or_not (env_get env "GOOGLE_CLIENT_SECRET")] ].

(** Lines printed one after the other until one of them cannot be
    built: the lines printed, and how the printing ended. *)
Fixpoint print_lines (lines : list (option ConsoleLine)) : list ConsoleLine * Result unit :=
  match lines with
  | [] => ([], Ok tt)
  | Some l :: rest => let '(out, r) := print_lines rest in (l :: out, r)
  | None :: _ => ([], Thrown (type_error unprintable))
  end.

(** Lines 351-362: what the callback of [app.listen] prints once the
    server listens. *)
Definition listen_banner (cfg : EnvConfig) : list ConsoleLine * Result unit :=
  print_lines
    [ Some (ConsoleLog ["🚀 CVrio OAuth Server Started!"]);
      (port_text ← js_to_string (port (server cfg));
       Some (ConsoleLog ["📱 Server running at: http://localhost:" +:+ port_text]));
      (port_text ← js_to_string (port (server cfg));
       Some (ConsoleLog ["🔗 Google OAuth: http://localhost:" +:+ port_text +:+ "/auth/google"]));
      (port_text ← js_to_string (port (server cfg));
       Some (ConsoleLog ["👤 Profile API: http://localhost:" +:+ port_text +:+ "/profile"]));
      (port_text ← js_to_string (port (server cfg));
       Some (ConsoleLog ["❤️  Health Check: http://localhost:" +:+ port_text +:+ "/health"]));
      Some (ConsoleLog [""]);
      Some (ConsoleLog ["📋 Configuration loaded successfully!"]);
      (nodeEnv_text ← js_to_string (nodeEnv (server cfg));
       Some (ConsoleLog ["   Environment: " +:+ nodeEnv_text]));
      Some (ConsoleLog ["   Database: " +:+ (if js_truthy (url (database cfg)) then "Connected" else "Not configured")]);
      Some (ConsoleLog ["   OAuth: " +:+ (if js_truthy (clientId (google (oauth cfg))) then "Configured" else "Not configured")]) ].

Lemma is_set_truthy env k : is_set env k <-> js_truthy (env_get env k) = true.
Proof. by rewrite env_get_truthy, bool_decide_eq_true. Qed.

Lemma is_set_agree env env' k : env' !! k = env !! k -> is_set env' k <-> is_set env k.
Proof. unfold is_set. by intros ->. Qed.

(** The variables [validateConfig] finds missing, under two
    environments that agree on the required variables. *)
Lemma missing_agree env env' :
  (forall k, k ∈ required_variables -> env' !! k = env !! k) ->
  filter (fun k => ~ is_set env' k) required_variables
  = filter (fun k => ~ is_set env k) required_variables.
Proof.
  intros Hagree. induction required_variables as [|k l IH]; [done|].
  rewrite !filter_cons.
  assert (is_set env' k <-> is_set env k) as Hk by (apply is_set_agree, Hagree; left).
  rewrite IH by (intros k' Hk'; apply Hagree; by right).
  repeat case_decide; tauto.
Qed.

(** X1. A process that listens does so on the value of [PORT] when it
    is set, a string, and on the number 3000 when [PORT] is undefined
    or empty. *)
Theorem startup_port env out p :
  startup env = (out, Listening p) ->
  (forall v, env !! "PORT" = Some v -> v <> "" -> p = JStr v)
  /\ (~ is_set env "PORT" -> p = JNum "3000").
Proof.
  unfold startup. destruct (validateConfig (envConfig env)) as [out' [|c]]; [|done].
  intros [= _ <-]. simpl. unfold js_or. split.
  - intros v Hv Hne. unfold env_get. rewrite Hv. by destruct v.
  - intros Hno. rewrite is_set_truthy in Hno. by destruct (js_truthy (env_get env "PORT")).
Qed.

Lemma startup_port_witness :
  (forall v, Scenario.env_complete !! "PORT" = Some v -> v <> "" -> JNum "3000" = JStr v)
  /\ (~ is_set Scenario.env_complete "PORT" -> JNum "3000" = JNum "3000").
Proof.
  apply (startup_port Scenario.env_complete
           [ ConsoleLog ["✅ All required environment variables are set"] ]).
  vm_compute. reflexivity.
Defined.

(** X2. Whether [validateConfig] ends the process, and what it
    reports, depend on the four required variables only: two
    environments that agree on them give the same console lines and the
    same [process.exit], whatever [REDIRECT_URI], [PORT], [NODE_ENV] or
    any other variable holds. *)
Theorem startup_required_only env env' :
  (forall k, k ∈ required_variables -> env' !! k = env !! k) ->
  fst (startup env') = fst (startup env)
  /\ (forall c, snd (startup env') = Terminated c <-> snd (startup env) = Terminated c).
Proof.
  intros Hagree. rewrite !startup_by_missing, (missing_agree env env' Hagree).
  by case_decide.
Qed.

Lemma startup_required_only_witness :
  fst (startup (<["PORT" := "8080"]> Scenario.env_incomplete))
  = fst (startup Scenario.env_incomplete)
  /\ (forall c,
        snd (startup (<["PORT" := "8080"]> Scenario.env_incomplete)) = Terminated c
        <-> snd (startup Scenario.env_incomplete) = Terminated c).
Proof.
  apply (startup_required_only Scenario.env_incomplete
           (<["PORT" := "8080"]> Scenario.env_incomplete)).
  intros k Hk. apply lookup_insert_ne. intros <-.
  unfold required_variables in Hk.
  repeat (apply elem_of_cons in Hk as [Hk|Hk]; [discriminate|]).
  by apply not_elem_of_nil in Hk.
Defined.

(** The line of the debug output on a required variable. *)
Lemma debug_lines_entry env k x :
  k ∈ required_variables ->
  ConsoleLog [k +:+ ":"; x] ∈ debug_lines env <-> x = set_or_not (env_get env k).
Proof.
  unfold required_variables, debug_lines. rewrite !elem_of_cons, elem_of_nil.
  intros [->|[->|[->|[->|[]]]]]; (split; [intros Hin|intros ->]).
  all: try (repeat first [left; reflexivity|right]).
  all: repeat (destruct Hin as [Hin|Hin]; [vm_compute in Hin; by simplify_eq|]).
  all: by apply not_elem_of_nil in Hin.
Qed.

(** X3. The debug lines and [validateConfig] agree: a required variable
    is printed [NOT SET] exactly when [validateConfig] reports it
    missing, and [SET] exactly when it does not. *)
Theorem debug_lines_match_validation env :
  Forall (fun k =>
            (ConsoleLog [k +:+ ":"; "NOT SET"] ∈ debug_lines env
             <-> k ∈ missingVars (envConfig env))
            /\ (ConsoleLog [k +:+ ":"; "SET"] ∈ debug_lines env
                <-> k ∉ missingVars (envConfig env)))
         required_variables.
Proof.
  apply Forall_forall. intros k Hk.
  rewrite !debug_lines_entry, missingVars_filter, list_elem_of_filter by done.
  unfold set_or_not. rewrite is_set_truthy.
  destruct (js_truthy (env_get env k)); naive_solver.
Qed.

(** A value of the configuration read from the environment, with a
    printable default, can be printed. *)
Lemma env_printable env k dflt text :
  js_to_string dflt = Some text ->
  exists t, js_to_string (js_or (env_get env k) dflt) = Some t.
Proof.
  intros Hdflt. unfold js_or, env_get.
  destruct (env !! k) as [v|]; simpl; [|by eexists].
  destruct v; simpl; by eexists.
Qed.

(** X4. Once the server listens, the banner reports the database as
    connected and OAuth as configured: [validateConfig] has let only
    configurations with a database URL and a client id through, so the
    [Not configured] branches of the banner are never printed. *)
Theorem listen_banner_configured env out p :
  startup env = (out, Listening p) ->
  exists lines,
    listen_banner (envConfig env) = (lines, Ok tt)
    /\ drop 8 lines
       = [ ConsoleLog ["   Database: Connected"]; ConsoleLog ["   OAuth: Configured"] ].
Proof.
  intros Hlisten.
  assert (is_set env "SUPABASE_URL") as Hurl.
  { apply (startup_listening env out p Hlisten). unfold required_variables. set_solver. }
  assert (is_set env "GOOGLE_CLIENT_ID") as Hid.
  { apply (startup_listening env out p Hlisten). unfold required_variables. set_solver. }
  apply is_set_truthy in Hurl, Hid.
  unfold listen_banner, envConfig.
  cbn [server database oauth google port nodeEnv url clientId].
  rewrite Hurl, Hid.
  destruct (env_printable env "PORT" (JNum "3000") "3000" eq_refl) as [port_text ->].
  destruct (env_printable env "NODE_ENV" (JStr "development") "development" eq_refl)
    as [nodeEnv_text ->].
  eexists. split; reflexivity.
Qed.

Lemma listen_banner_configured_witness :
  exists lines,
    listen_banner (envConfig Scenario.env_complete) = (lines, Ok tt)
    /\ drop 8 lines
       = [ ConsoleLog ["   Database: Connected"]; ConsoleLog ["   OAuth: Configured"] ].
Proof.
  apply (listen_banner_configured Scenario.env_complete
           [ ConsoleLog ["✅ All required environment variables are set"] ] (JNum "3000")).
  vm_compute. reflexivity.
Defined.

(** X5. On a process that listens, [/health] always reports
    [hasDatabase] and [hasGoogleOAuth] as true, and [port] as the port
    listened on: the two flags cannot come out false on a running
    server. *)
Theorem health_flags_constant env out p w q s :
  startup env = (out, Listening p) ->
  exists body config,
    serve (envConfig env) w {| route := GetHealth; query := q |} s
    = (SendJson 200 (JObj body), s, [])
    /\ body !! "config" = Some (JObj config)
    /\ config !! "port" = Some p
    /\ config !! "hasDatabase" = Some (JBool true)
    /\ config !! "hasGoogleOAuth" = Some (JBool true).
Proof.
  intros Hlisten.
  assert (is_set env "SUPABASE_URL") as Hurl.
  { apply (startup_listening env out p Hlisten). unfold required_variables. set_solver. }
  assert (is_set env "GOOGLE_CLIENT_ID") as Hid.
  { apply (startup_listening env out p Hlisten). unfold required_variables. set_solver. }
  apply is_set_truthy in Hurl, Hid.
  assert (p = port (server (envConfig env))) as ->.
  { unfold startup in Hlisten.
    destruct (validateConfig (envConfig env)) as [out' [|c]]; by simplify_eq. }
  eexists _, _. split; [reflexivity|].
  split; [by simplify_map_eq|].
  split; [by simplify_map_eq|].
  simpl in Hurl, Hid. simpl. rewrite Hurl, Hid. by simplify_map_eq.
Qed.

Lemma health_flags_constant_witness :
  exists body config,
    serve (envConfig Scenario.env_complete) Scenario.world_ok
      {| route := GetHealth; query := ∅ |} None
    = (SendJson 200 (JObj body), None, [])
    /\ body !! "config" = Some (JObj config)
    /\ config !! "port" = Some (JNum "3000")
    /\ config !! "hasDatabase" = Some (JBool true)
    /\ config !! "hasGoogleOAuth" = Some (JBool true).
Proof.
  apply (health_flags_constant Scenario.env_complete
           [ ConsoleLog ["✅ All required environment variables are set"] ]).
  vm_compute. reflexivity.
Defined.

(** ** Starting the OAuth flow *)

(** [c] is one of the characters of [s]. *)
Fixpoint occurs (c : Ascii.ascii) (s : string) : bool :=
  match s with
  | EmptyString => false
  | String d rest => Ascii.eqb c d || occurs c rest
  end.

(** The characters [encodeURIComponent] leaves as they are: letters,
    digits and the marks [- _ . ! ~ * ' ( )]. *)
Definition uri_unreserved (c : Ascii.ascii) : bool :=
  occurs c "ABCDEFGHIJKLMNOPQRSTUVWXYZabcdefghijklmnopqrstuvwxyz0123456789-_.!~*'()".

Definition hex_digit (n : N) : Ascii.ascii :=
  default Ascii.zero (String.get (N.to_nat n) "0123456789ABCDEF").

(** [encodeURIComponent] on a well-formed string, held as its UTF-8
    bytes: every byte that is not unreserved becomes [%] and two
    upper-case hexadecimal digits. *)
Fixpoint encodeURIComponent (s : string) : string :=
  match s with
  | EmptyString => EmptyString
  | String c rest =>
      if uri_unreserved c then String c (encodeURIComponent rest)
      else
        let n := Ascii.N_of_ascii c in
        "%" +:+ String (hex_digit (n / 16)) (String (hex_digit (n mod 16))
                  (encodeURIComponent rest))
  end%N.

(** X6. [/auth/google] redirects (302) to Google's authorization
    endpoint with the client id and the redirect URI of the environment
    inserted as they are, the redirect URI unencoded and defaulting to
    the local callback, [response_type=code], the two userinfo scopes
    percent-encoded and [access_type=offline], and no [state] parameter;
    it makes no outbound call and leaves the session slot as it was. *)
Theorem auth_google_redirect env out p w q s :
  startup env = (out, Listening p) ->
  exists client_id redirect_uri,
    env !! "GOOGLE_CLIENT_ID" = Some client_id
    /\ redirect_uri
       = (if decide (is_set env "REDIRECT_URI")
          then default "" (env !! "REDIRECT_URI")
          else "http://localhost:3000/auth/google/callback")
    /\ serve (envConfig env) w {| route := GetAuthGoogle; query := q |} s
       = (Redirect 302
            ("https://accounts.google.com/o/oauth2/v2/auth?client_id=" +:+ client_id
             +:+ "&redirect_uri=" +:+ redirect_uri
             +:+ "&response_type=code&scope="
             +:+ encodeURIComponent
                   "https://www.googleapis.com/auth/userinfo.profile https://www.googleapis.com/auth/userinfo.email"
             +:+ "&access_type=offline"),
          s, []).
Proof.
  intros Hlisten.
  assert (is_set env "GOOGLE_CLIENT_ID") as (client_id & Hid & _).
  { apply (startup_listening env out p Hlisten). unfold required_variables. set_solver. }
  exists client_id. eexists. split; [done|]. split; [reflexivity|].
  unfold serve, route_handler, auth_google_handler, mbind, M_bind, to_string.
  cbn [route query envConfig oauth google clientId redirectUri].
  unfold env_get at 1. rewrite Hid. simpl.
  assert (js_to_string (js_or (env_get env "REDIRECT_URI")
                          (JStr "http://localhost:3000/auth/google/callback"))
          = Some (if decide (is_set env "REDIRECT_URI")
                  then default "" (env !! "REDIRECT_URI")
                  else "http://localhost:3000/auth/google/callback")) as ->.
  { unfold js_or. rewrite env_get_truthy. unfold env_get.
    case_bool_decide as Hset; case_decide; try done.
    by destruct Hset as (v & -> & _). }
  reflexivity.
Qed.

Lemma auth_google_redirect_witness :
  exists client_id redirect_uri,
    Scenario.env_complete !! "GOOGLE_CLIENT_ID" = Some client_id
    /\ redirect_uri
       = (if decide (is_set Scenario.env_complete "REDIRECT_URI")
          then default "" (Scenario.env_complete !! "REDIRECT_URI")
          else "http://localhost:3000/auth/google/callback")
    /\ serve (envConfig Scenario.env_complete) Scenario.world_ok
         {| route := GetAuthGoogle; query := ∅ |} (Some Scenario.user_b)
       = (Redirect 302
            ("https://accounts.google.com/o/oauth2/v2/auth?client_id=" +:+ client_id
             +:+ "&redirect_uri=" +:+ redirect_uri
             +:+ "&response_type=code&scope="
             +:+ encodeURIComponent
                   "https://www.googleapis.com/auth/userinfo.profile https://www.googleapis.com/auth/userinfo.email"
             +:+ "&access_type=offline"),
          Some Scenario.user_b, []).
Proof.
  apply (auth_google_redirect Scenario.env_complete
           [ ConsoleLog ["✅ All required environment variables are set"] ] (JNum "3000")).
  vm_compute. reflexivity.
Defined.

(** ** The handlers together *)

(** What [/] and [/auth/google] do, spelled out. *)
Lemma home_handler_cases s :
  (s = None /\ home_handler s = (Ok (Send 200 page_login), s, []))
  \/ (exists u n p e,
        s = Some u
        /\ js_to_string (name u) = Some n
        /\ js_to_string (picture u) = Some p
        /\ js_to_string (email u) = Some e
        /\ home_handler s = (Ok (Send 200 (page_welcome n p e)), s, []))
  \/ (exists u,
        s = Some u
        /\ (js_to_string (name u) = None
            \/ js_to_string (picture u) = None
            \/ js_to_string (email u) = None)
        /\ home_handler s = (Thrown (type_error unprintable), s, [])).
Proof.
  destruct s as [u|]; [right|by left].
  unfold home_handler, mbind, M_bind, to_string. simpl.
  destruct (js_to_string (name u)) as [n|] eqn:Hn; [|right; exists u; by eauto 10].
  destruct (js_to_string (picture u)) as [p|] eqn:Hp; [|right; exists u; by eauto 10].
  destruct (js_to_string (email u)) as [e|] eqn:He; [|right; exists u; by eauto 10].
  left. exists u, n, p, e. by rewrite Hn, Hp, He.
Qed.

Lemma auth_google_handler_cases cfg s :
  (exists target, auth_google_handler cfg s = (Ok (Redirect 302 target), s, [])
                  /\ is_Some (js_to_string (clientId (google (oauth cfg))))
                  /\ is_Some (js_to_string (redirectUri (google (oauth cfg)))))
  \/ (auth_google_handler cfg s = (Thrown (type_error unprintable), s, [])
      /\ (js_to_string (clientId (google (oauth cfg))) = None
          \/ js_to_string (redirectUri (google (oauth cfg))) = None)).
Proof.
  unfold auth_google_handler, mbind, M_bind, to_string.
  destruct (js_to_string (clientId (google (oauth cfg)))) as [c|]; [|right; by eauto].
  simpl.
  destruct (js_to_string (redirectUri (google (oauth cfg)))) as [r|]; [|right; by eauto].
  left. eexists. by eauto.
Qed.

(** X7. Which handlers let an exception out, and when.  [/logout],
    [/profile], [/health] and the 404 handler never do.  [/] does
    exactly when the name, the picture or the email of the user in the
    session slot cannot be converted to a string, [/auth/google] exactly
    when the client id or the redirect address of the configuration
    cannot.  The callback does in two cases only, both outside the reach
    of its [catch]: a truthy [error] parameter that cannot be converted
    to a string, and a rejected upsert whose message cannot. *)
Theorem handler_exceptions cfg w req s outcome s' t :
  route_handler cfg w req s = (outcome, s', t) ->
  (exists err, outcome = Thrown err)
  <-> match route req with
      | GetHome =>
          exists u,
            s = Some u
            /\ (js_to_string (name u) = None
                \/ js_to_string (picture u) = None
                \/ js_to_string (email u) = None)
      | GetAuthGoogle =>
          js_to_string (clientId (google (oauth cfg))) = None
          \/ js_to_string (redirectUri (google (oauth cfg))) = None
      | GetCallback =>
          (js_truthy (obj_get (query req) "error") = true
           /\ js_to_string (obj_get (query req) "error") = None)
          \/ (exists table row options err,
                SupabaseUpsert table row options (Thrown err) ∈ t
                /\ js_to_string (message err) = None)
      | GetLogout | GetProfile | GetHealth | Unmatched => False
      end.
Proof.
  destruct req as [r q]. unfold route_handler. cbn [route query].
  destruct r.
  - intros Hhome.
    destruct (home_handler_cases s)
      as [[-> Heq]|[(u & n & p & e & -> & Hn & Hp & He & Heq)|(u & -> & Hcase & Heq)]];
      rewrite Heq in Hhome; simplify_eq.
    + split; [by intros [? [=]]|by intros (? & [=] & _)].
    + split; [by intros [? [=]]|].
      intros (? & [= <-] & Hcase). rewrite Hn, Hp, He in Hcase. naive_solver.
    + split; [by eauto|by eexists].
  - intros Hstart.
    destruct (auth_google_handler_cases cfg s) as [(target & Heq & [c Hc] & [u Hu])|[Heq Hcase]];
      rewrite Heq in Hstart; simplify_eq.
    + rewrite Hc, Hu. split; [by intros [? [=]]|naive_solver].
    + split; [done|by eexists].
  - intros Hcallback.
    destruct (callback_run cfg w q s) as (outcome0 & s0 & t0 & Heq & Hrun & Hnone).
    rewrite Hcallback in Heq. simplify_eq. rewrite <- Hnone. clear Hnone Hcallback.
    remember (answer_of GetCallback outcome0) as res eqn:Hres. clear Hres.
    split.
    + intros ->. inversion Hrun; subst; [by left|].
      right.
      match goal with H : store_upsert _ _ _ _ = Thrown _ |- _ => rewrite H end.
      eexists _, _, _, _. split; [right; right; left|eassumption].
    + intros [[Htruthy Hnot]|(table & row & options & err & Hin & Hnot)].
      * destruct Hrun; congruence.
      * destruct Hrun; trace_cases Hin; congruence.
  - unfold logout_handler. destruct s; intros [= <- <- <-]; split; by intros [].
  - unfold profile_handler. destruct s; intros [= <- <- <-]; split; by intros [].
  - unfold health_handler. intros [= <- <- <-]; split; by intros [].
  - simpl. intros [= <- <- <-]; split; by intros [].
Qed.

Lemma handler_exceptions_witness :
  (exists err, @Thrown Response (type_error unprintable) = Thrown err)
  <-> (js_truthy (obj_get Unprintable.query_object_error "error") = true
       /\ js_to_string (obj_get Unprintable.query_object_error "error") = None)
      \/ (exists table row options err,
            SupabaseUpsert table row options (Thrown err) ∈ []
            /\ js_to_string (message err) = None).
Proof.
  apply (handler_exceptions Scenario.cfg Scenario.world_ok
           (Scenario.callback_with Unprintable.query_object_error) None
           (Thrown (type_error unprintable)) None []).
  vm_compute. reflexivity.
Defined.

(** X8. The answer to every request, by route: for [/] a 200, or the
    500 of the error-handling middleware when the page of the signed-in
    user cannot be built; for [/auth/google] a 302, or that 500 when the
    address cannot be built; 200 for [/logout] and [/health]; 200 or 401
    for [/profile] by the session slot; 404 for an unmatched request;
    all without an outbound call.  The callback answers 400 or nothing
    without an outbound call, 500 or nothing after at least one, each
    with the slot as it was, or 302 after three calls with the slot
    filled. *)
Theorem status_by_route cfg w req s :
  exists res s' t,
    serve cfg w req s = (res, s', t)
    /\ match route req with
       | GetHome =>
           (status_of res = 200 \/ res = Send 500 page_unhandled) /\ t = [] /\ s' = s
       | GetAuthGoogle =>
           (status_of res = 302 \/ res = Send 500 page_unhandled) /\ t = [] /\ s' = s
       | GetLogout | GetHealth => status_of res = 200 /\ t = []
       | GetProfile =>
           status_of res = (if authenticated s then 200 else 401) /\ t = [] /\ s' = s
       | Unmatched => status_of res = 404 /\ t = [] /\ s' = s
       | GetCallback =>
           ((status_of res = 400 \/ res = NoResponse) /\ t = [] /\ s' = s)
           \/ ((status_of res = 500 \/ res = NoResponse) /\ t <> [] /\ s' = s)
           \/ (status_of res = 302 /\ length t = 3%nat /\ is_Some s')
       end.
Proof.
  destruct req as [r q]. unfold serve, route_handler. cbn [route query].
  destruct r.
  - destruct (home_handler_cases s)
      as [[-> ->]|[(u & n & p & e & -> & _ & _ & _ & ->)|(u & -> & _ & ->)]];
      eexists _, _, _; (split; [reflexivity|]); simpl; auto.
  - destruct (auth_google_handler_cases cfg s) as [(target & -> & _)|[-> _]];
      eexists _, _, _; (split; [reflexivity|]); simpl; auto.
  - destruct (serve_callback cfg w q s) as (res & s' & t & Heq & Hrun).
    exists res, s', t. split; [exact Heq|].
    destruct Hrun; simpl; auto 10.
  - destruct s; eexists _, _, _; (split; [reflexivity|]); simpl; auto.
  - destruct s; eexists _, _, _; (split; [reflexivity|]); simpl; auto.
  - eexists _, _, _; (split; [reflexivity|]); simpl; auto.
  - eexists _, _, _; (split; [reflexivity|]); simpl; auto.
Qed.

Lemma axios_settle_2xx st body :
  200 <= st < 300 -> axios_settle (HttpResponse st body) = Ok {| status := st; data := body |}.
Proof.
  intros Hst. simpl.
  replace (200 <=? st) with true by (symmetry; apply Z.leb_le; lia).
  replace (st <? 300) with true by (symmetry; apply Z.ltb_lt; lia).
  done.
Qed.



(** ** More on the callback *)

(** What the outside world must answer for a callback to sign the user
    in: a 2xx token answer whose body is not [null] or [undefined] and
    whose [access_token] can be converted to a string, a 2xx userinfo
    answer for that bearer credential whose body is not [null] or
    [undefined] either, and a store answer, for the row built from that
    body, that is an object without an error. *)
Definition sign_in_answers (cfg : EnvConfig) (w : World) (code : jsval)
  (u : AuthenticatedUser) : Prop :=
  exists st1 body1 token bearer st2 body2 upserted supabaseError,
    net_post w token_endpoint (token_params cfg code) = HttpResponse st1 body1
    /\ 200 <= st1 < 300
    /\ js_get body1 "access_token" = Some token
    /\ js_to_string token = Some bearer
    /\ net_get w userinfo_endpoint (userinfo_headers bearer) = HttpResponse st2 body2
    /\ 200 <= st2 < 300
    /\ js_get body2 "id" = Some (id u)
    /\ js_get body2 "email" = Some (email u)
    /\ js_get body2 "name" = Some (name u)
    /\ js_get body2 "picture" = Some (picture u)
    /\ store_upsert w "users"
         (upsert_row (email u) (name u) (picture u) (id u) (now w)) upsert_options
       = Ok upserted
    /\ js_get upserted "error" = Some supabaseError
    /\ js_truthy supabaseError = false.

(** X10. A callback signs the user in, answering the redirect to [/]
    with the user in the session slot, exactly when its [error]
    parameter is falsy, its [code] parameter truthy, and the provider
    and the store answer as [sign_in_answers] says.  Nothing else is
    required: in particular not that the profile has an email. *)
Theorem callback_signs_in_iff cfg w q s u :
  (exists t,
     serve cfg w {| route := GetCallback; query := q |} s = (Redirect 302 "/", Some u, t))
  <-> js_truthy (obj_get q "error") = false
      /\ js_truthy (obj_get q "code") = true
      /\ sign_in_answers cfg w (obj_get q "code") u.
Proof.
  destruct (serve_callback cfg w q s) as (res & s' & t & Heq & Hrun).
  rewrite Heq. split.
  - intros [t' Ht']. destruct Hrun; simplify_eq.
    repeat match goal with
    | H : axios_settle _ = Ok _ |- _ => apply axios_settle_Ok in H as [? ?]
    end.
    split; [done|]. split; [done|].
    eexists _, _, _, _, _, _, _, _. simpl. repeat split; try eassumption; lia.
  - intros (He & Hc & st1 & body1 & token & bearer & st2 & body2 & upserted & supabaseError
            & Hpost & Hst1 & Htoken & Hbearer & Hget & Hst2 & Hid & Hemail & Hname
            & Hpicture & Hup & Herror & Hfalsy).
    destruct u as [ui ue un up]. simpl in *.
    assert (Ok {| status := st1; data := body1 |}
            = axios_settle (net_post w token_endpoint (token_params cfg (obj_get q "code"))))
      as Hs1 by (by rewrite Hpost, axios_settle_2xx).
    assert (Ok {| status := st2; data := body2 |}
            = axios_settle (net_get w userinfo_endpoint (userinfo_headers bearer)))
      as Hs2 by (by rewrite Hget, axios_settle_2xx).
    symmetry in Hup.
    destruct Hrun; try congruence.
    all: run_facts; cbn [data status] in *.
    all: repeat match goal with
         | H1 : js_to_string ?v = _, H2 : js_to_string ?v = _ |- _ =>
             rewrite H1 in H2; simplify_eq
         end.
    all: do 4 (run_facts; simpl in * ).
    eexists. reflexivity.
Qed.

(** Worlds with answers that lack what the handler reads. *)
Module Lacking.

(** The userinfo endpoint answers 200 with an empty object. *)
Definition world_empty_profile : World :=
  {| net_post := fun _ _ => HttpResponse 200 Scenario.token_body;
     net_get := fun _ _ => HttpResponse 200 (JObj ∅);
     store_upsert := fun _ _ _ => Ok (JObj {[ "data" := JNull; "error" := JNull ]});
     now := "2025-01-01T00:00:00.000Z" |}.

Definition nobody : AuthenticatedUser :=
  {| id := JUndefined; email := JUndefined; name := JUndefined; picture := JUndefined |}.

(** The token endpoint answers 200 with an object without
    [access_token]. *)
Definition world_no_token : World :=
  {| net_post := fun _ _ => HttpResponse 200 (JObj {[ "token_type" := JStr "Bearer" ]});
     net_get := fun _ _ => HttpResponse 401 (JObj {[ "error" := JStr "invalid_token" ]});
     store_upsert := fun _ _ _ => Ok (JObj {[ "data" := JNull; "error" := JNull ]});
     now := "2025-01-01T00:00:00.000Z" |}.

(** The userinfo endpoint answers 200 with [null]. *)
Definition world_null_profile : World :=
  {| net_post := fun _ _ => HttpResponse 200 Scenario.token_body;
     net_get := fun _ _ => HttpResponse 200 JNull;
     store_upsert := fun _ _ _ => Ok (JObj {[ "data" := JNull; "error" := JNull ]});
     now := "2025-01-01T00:00:00.000Z" |}.

(** The store reports an error without a hint. *)
Definition world_store_error_no_hint : World :=
  {| net_post := fun _ _ => HttpResponse 200 Scenario.token_body;
     net_get := fun _ _ => HttpResponse 200 Scenario.profile_body;
     store_upsert := fun _ _ _ =>
       Ok (JObj {[ "data" := JNull;
                   "error" := JObj {[ "message" := JStr "permission denied" ]} ]});
     now := "2025-01-01T00:00:00.000Z" |}.

End Lacking.

Lemma callback_signs_in_iff_witness :
  exists t,
    serve Scenario.cfg Lacking.world_empty_profile
      (Scenario.callback_with Scenario.query_code) None
    = (Redirect 302 "/", Some Lacking.nobody, t).
Proof.
  apply (callback_signs_in_iff Scenario.cfg Lacking.world_empty_profile
           Scenario.query_code None Lacking.nobody).
  split; [reflexivity|]. split; [reflexivity|].
  exists 200, Scenario.token_body, (JStr "t1"), "t1", 200, (JObj ∅),
    (JObj {[ "data" := JNull; "error" := JNull ]}), JNull.
  repeat split; try reflexivity; try lia.
Defined.

(** X11. When the token endpoint answers 2xx with an object that has
    no [access_token], the handler goes on: it requests the userinfo
    with the credential [Bearer undefined]. *)
Theorem callback_missing_access_token cfg w q s res s' t st body :
  serve cfg w {| route := GetCallback; query := q |} s = (res, s', t) ->
  js_truthy (obj_get q "error") = false ->
  js_truthy (obj_get q "code") = true ->
  net_post w token_endpoint (token_params cfg (obj_get q "code"))
  = HttpResponse st (JObj body) ->
  200 <= st < 300 ->
  body !! "access_token" = None ->
  exists answer,
    AxiosGet userinfo_endpoint (JObj {[ "Authorization" := JStr "Bearer undefined" ]}) answer
    ∈ t.
Proof.
  intros Hserve He Hc Hpost Hst Hmissing.
  destruct (serve_callback cfg w q s) as (res0 & s0 & t0 & Heq & Hrun).
  rewrite Hserve in Heq. simplify_eq.
  assert (Ok {| status := st; data := JObj body |}
          = axios_settle (net_post w token_endpoint (token_params cfg (obj_get q "code"))))
    as Hs1 by (by rewrite Hpost, axios_settle_2xx).
  assert (js_get (JObj body) "access_token" = Some JUndefined) as Hat.
  { simpl. unfold obj_get. by rewrite Hmissing. }
  destruct Hrun; try congruence.
  all: do 2 (run_facts; cbn [data status] in * ).
  all: match goal with
       | H : js_to_string JUndefined = _ |- _ => simpl in H; simplify_eq
       end.
  all: eexists; right; left.
Qed.

Lemma callback_missing_access_token_witness :
  exists answer,
    AxiosGet userinfo_endpoint (JObj {[ "Authorization" := JStr "Bearer undefined" ]}) answer
    ∈ [ AxiosPost token_endpoint (token_params Scenario.cfg (JStr "abc"))
          (HttpResponse 200 (JObj {[ "token_type" := JStr "Bearer" ]}));
        AxiosGet userinfo_endpoint (userinfo_headers "undefined")
          (HttpResponse 401 (JObj {[ "error" := JStr "invalid_token" ]})) ].
Proof.
  eapply (callback_missing_access_token Scenario.cfg Lacking.world_no_token
            Scenario.query_code None).
  - vm_compute. reflexivity.
  - reflexivity.
  - reflexivity.
  - reflexivity.
  - lia.
  - vm_compute. reflexivity.
Defined.

(** X12. A 2xx answer can still end in a 500.  When the userinfo
    endpoint answers 2xx with [null] or [undefined] as body, reading the
    profile's email raises a [TypeError]: the answer is a 500 whose page
    shows the engine's message, nothing is sent to the store, and the
    session slot keeps its content. *)
Theorem callback_nullish_profile cfg w q s res s' t url headers st body :
  serve cfg w {| route := GetCallback; query := q |} s = (res, s', t) ->
  AxiosGet url headers (HttpResponse st body) ∈ t ->
  200 <= st < 300 ->
  body = JNull \/ body = JUndefined ->
  res = Send 500 (page_auth_failed
                    ("Cannot read properties of "
                     +:+ match body with JNull => "null" | _ => "undefined" end
                     +:+ " (reading 'email')"))
  /\ (forall table row options answer, SupabaseUpsert table row options answer ∉ t)
  /\ s' = s.
Proof.
  intros Hserve Hin Hst Hbody.
  destruct (serve_callback cfg w q s) as (res0 & s0 & t0 & Heq & Hrun).
  rewrite Hserve in Heq. simplify_eq.
  assert (js_get body "email" = None) as Hnone by (by destruct Hbody as [->| ->]).
  destruct Hrun; trace_cases Hin.
  all: repeat match goal with
       | H : HttpResponse _ _ = ?a, H' : axios_settle ?a = _ |- _ =>
           rewrite <- H, axios_settle_2xx in H' by done; simplify_eq
       end; simpl in *.
  all: try congruence.
  split; [by destruct Hbody as [->| ->]|].
  split; [|done]. intros table row options answer Hup. trace_cases Hup.
Qed.

Lemma callback_nullish_profile_witness :
  serve Scenario.cfg Lacking.world_null_profile
    (Scenario.callback_with Scenario.query_code) (Some Scenario.user_b)
  = (Send 500 (page_auth_failed "Cannot read properties of null (reading 'email')"),
     Some Scenario.user_b,
     [ AxiosPost token_endpoint (token_params Scenario.cfg (JStr "abc"))
         (HttpResponse 200 Scenario.token_body);
       AxiosGet userinfo_endpoint (userinfo_headers "t1") (HttpResponse 200 JNull) ]).
Proof.
  assert (exists res s' t,
            serve Scenario.cfg Lacking.world_null_profile
              (Scenario.callback_with Scenario.query_code) (Some Scenario.user_b)
            = (res, s', t)
            /\ t = [ AxiosPost token_endpoint (token_params Scenario.cfg (JStr "abc"))
                       (HttpResponse 200 Scenario.token_body);
                     AxiosGet userinfo_endpoint (userinfo_headers "t1")
                       (HttpResponse 200 JNull) ])
    as (res & s' & t & Hserve & Ht).
  { eexists _, _, _. split; vm_compute; reflexivity. }
  destruct (callback_nullish_profile _ _ _ _ _ _ _ userinfo_endpoint
              (userinfo_headers "t1") 200 JNull Hserve) as (-> & _ & ->).
  - rewrite Ht. right. left.
  - lia.
  - by left.
  - rewrite Hserve, Ht. reflexivity.
Defined.

(** X14. When the store reports an error whose message can be
    converted to a string and whose [hint] is missing or falsy, the
    page is the "Database Error" page, with that message and the fixed
    hint [Check your Supabase table configuration] in the hint's
    place. *)
Theorem callback_store_error_default_hint cfg w q s res s' t table row options
    upserted supabaseError error_message message_text hint :
  serve cfg w {| route := GetCallback; query := q |} s = (res, s', t) ->
  SupabaseUpsert table row options (Ok upserted) ∈ t ->
  js_get upserted "error" = Some supabaseError ->
  js_truthy supabaseError = true ->
  js_get supabaseError "message" = Some error_message ->
  js_to_string error_message = Some message_text ->
  js_get supabaseError "hint" = Some hint ->
  js_truthy hint = false ->
  exists html,
    res = Send 500 html
    /\ contains "Database Error" html
    /\ contains ("Failed to store user: " +:+ message_text) html
    /\ contains "<strong>Hint:</strong> Check your Supabase table configuration" html.
Proof.
  intros Hserve Hin Herror Htruthy Hmessage Htext Hhint Hfalsy.
  destruct (serve_callback cfg w q s) as (res0 & s0 & t0 & Heq & Hrun).
  rewrite Hserve in Heq. simplify_eq.
  destruct Hrun; trace_cases Hin; run_facts.
  all: repeat match goal with
       | H : _ \/ _ |- _ => destruct H
       end.
  all: repeat match goal with
       | Hf : js_truthy ?h = false, H : context [js_or ?h default_hint] |- _ =>
           unfold js_or in H; rewrite Hf in H; simpl in H
       end.
  all: try congruence.
  all: repeat match goal with
       | H1 : js_to_string ?v = _, H2 : js_to_string ?v = _ |- _ =>
           rewrite H1 in H2; simplify_eq
       end.
  simplify_eq.
  eexists. split; [reflexivity|].
  unfold page_database_error. repeat split.
  - eapply contains_template; [by left|]. by exists "        <h2>❌ ", "</h2>".
  - eapply contains_template; [right; left|].
    exists "        <p>", "</p>". by rewrite !string_app_assoc.
  - eapply contains_template; [right; right; left|].
    exists "        <p>", "</p>". vm_compute. reflexivity.
Qed.

Lemma callback_store_error_default_hint_witness :
  exists html,
    serve Scenario.cfg Lacking.world_store_error_no_hint
      (Scenario.callback_with Scenario.query_code) None
    = (Send 500 html, None,
       [ AxiosPost token_endpoint (token_params Scenario.cfg (JStr "abc"))
           (HttpResponse 200 Scenario.token_body);
         AxiosGet userinfo_endpoint (userinfo_headers "t1")
           (HttpResponse 200 Scenario.profile_body);
         SupabaseUpsert "users"
           (upsert_row (JStr "a@b.com") (JStr "A") (JStr "p") (JStr "1")
              "2025-01-01T00:00:00.000Z")
           upsert_options
           (Ok (JObj {[ "data" := JNull;
                        "error" := JObj {[ "message" := JStr "permission denied" ]} ]})) ])
    /\ contains "Database Error" html
    /\ contains "Failed to store user: permission denied" html
    /\ contains "<strong>Hint:</strong> Check your Supabase table configuration" html.
Proof.
  edestruct (callback_store_error_default_hint Scenario.cfg
               Lacking.world_store_error_no_hint Scenario.query_code None)
    as (html & Hres & Htitle & Hmessage & Hhint).
  - vm_compute. reflexivity.
  - right. right. left.
  - vm_compute. reflexivity.
  - reflexivity.
  - vm_compute. reflexivity.
  - reflexivity.
  - vm_compute. reflexivity.
  - reflexivity.
  - exists html. rewrite <- Hres. split; [reflexivity|]. by repeat split.
Defined.

(** ** The home page *)

(** X15. [/] never touches the session slot and makes no outbound
    call.  With an empty slot it answers 200 with a page that links to
    [/auth/google].  With a user in the slot whose name, picture and
    email can be converted to strings it answers 200 with a page that
    greets the user, shows these three texts, each inserted as it is,
    and links to [/logout].  When one of the three cannot be converted,
    building the page throws and the answer is the 500 of the
    error-handling middleware. *)
Theorem home_response cfg w q :
  (exists html,
     serve cfg w {| route := GetHome; query := q |} None = (Send 200 html, None, [])
     /\ contains ("<a href=" +:+ dq +:+ "/auth/google" +:+ dq) html)
  /\ (forall u n p e,
        js_to_string (name u) = Some n ->
        js_to_string (picture u) = Some p ->
        js_to_string (email u) = Some e ->
        exists html,
          serve cfg w {| route := GetHome; query := q |} (Some u)
          = (Send 200 html, Some u, [])
          /\ contains ("<h2>Hello, " +:+ n +:+ "!</h2>") html
          /\ contains ("<img src=" +:+ dq +:+ p +:+ dq) html
          /\ contains ("<strong>Email:</strong> " +:+ e) html
          /\ contains ("<a href=" +:+ dq +:+ "/logout" +:+ dq) html)
  /\ (forall u,
        js_to_string (name u) = None
        \/ js_to_string (picture u) = None
        \/ js_to_string (email u) = None ->
        serve cfg w {| route := GetHome; query := q |} (Some u)
        = (Send 500 page_unhandled, Some u, [])).
Proof.
  split; [|split].
  - eexists. split; [reflexivity|].
    unfold page_login. eapply contains_template; [do 27 right; left|].
    exists "          ", (" class=" +:+ dq +:+ "google-btn" +:+ dq +:+ ">").
    vm_compute. reflexivity.
  - intros u n p e Hn Hp He. eexists. split.
    { unfold serve, route_handler, home_handler, mbind, M_bind, to_string. simpl.
      rewrite Hn, Hp, He. reflexivity. }
    unfold page_welcome. repeat split.
    + eapply contains_template; [do 17 right; left|].
      exists "          ", "". rewrite string_app_nil_r. reflexivity.
    + eapply contains_template; [do 18 right; left|].
      exists "          ",
        (" alt=" +:+ dq +:+ "Profile Picture" +:+ dq +:+ " class=" +:+ dq
         +:+ "profile-img" +:+ dq +:+ ">").
      rewrite !string_app_assoc. reflexivity.
    + eapply contains_template; [do 19 right; left|].
      exists "          <p>", "</p>". rewrite !string_app_assoc. reflexivity.
    + eapply contains_template; [do 22 right; left|].
      exists "            ",
        (" class=" +:+ dq +:+ "btn logout-btn" +:+ dq +:+ ">Logout</a>").
      vm_compute. reflexivity.
  - intros u Hcase. unfold serve, route_handler. cbn [route].
    destruct (home_handler_cases (Some u))
      as [[[=] _]|[(u' & n & p & e & [= <-] & Hn & Hp & He & _)|(u' & [= <-] & _ & ->)]].
    + rewrite Hn, Hp, He in Hcase. naive_solver.
    + reflexivity.
Qed.

Lemma home_response_witness :
  serve Scenario.cfg Scenario.world_ok (Scenario.get GetHome) (Some Unprintable.user)
  = (Send 500 page_unhandled, Some Unprintable.user, []).
Proof.
  apply (proj2 (proj2 (home_response Scenario.cfg Scenario.world_ok ∅))).
  left. reflexivity.
Defined.

(** ** Sequences of requests *)

(** What Node does with the rejected promise of a callback that ended
    without a response, as its option [--unhandled-rejections] names
    it: [warn], it reports the rejection and the process goes on, or
    [throw], the default from Node 15, the process ends. *)
Inductive UnhandledRejections :=
| Warn
| Throw.

Definition ends_process (mode : UnhandledRejections) (res : Response) : bool :=
  match mode, res with
  | Throw, NoResponse => true
  | _, _ => false
  end.

(** Requests served one after the other from a content of the session
    slot, each with the answers of the outside world at its time: the
    responses in order, the slot at the end, and all outbound calls.
    The callback touches the slot once, as its last step, and reads it
    nowhere; the other handlers do not await.  Requests that overlap in
    time therefore behave as if served in the order of their last
    step.  Once a request has ended the process, the requests after it
    are not served. *)
Fixpoint serve_all (cfg : EnvConfig) (mode : UnhandledRejections)
  (requests : list (World * Request)) (s : Session)
  : list Response * Session * list Event :=
  match requests with
  | [] => ([], s, [])
  | (w, req) :: rest =>
      let '(res, s1, t1) := serve cfg w req s in
      if ends_process mode res then ([res], s1, t1)
      else
        let '(ress, s2, t2) := serve_all cfg mode rest s1 in
        (res :: ress, s2, t1 ++ t2)
  end.

(** The user [u] is the profile of a 2xx userinfo answer of the
    trace. *)
Definition from_provider (t : list Event) (u : AuthenticatedUser) : Prop :=
  exists url headers st profile,
    AxiosGet url headers (HttpResponse st profile) ∈ t
    /\ 200 <= st < 300
    /\ js_get profile "id" = Some (id u)
    /\ js_get profile "email" = Some (email u)
    /\ js_get profile "name" = Some (name u)
    /\ js_get profile "picture" = Some (picture u).

Lemma from_provider_app_l t1 t2 u : from_provider t1 u -> from_provider (t1 ++ t2) u.
Proof.
  intros (url & headers & st & profile & Hin & Hrest).
  exists url, headers, st, profile. split; [|done]. apply elem_of_app. by left.
Qed.

Lemma from_provider_app_r t1 t2 u : from_provider t2 u -> from_provider (t1 ++ t2) u.
Proof.
  intros (url & headers & st & profile & Hin & Hrest).
  exists url, headers, st, profile. split; [|done]. apply elem_of_app. by right.
Qed.

Lemma upsert_succeeded_app t1 t2 :
  upsert_succeeded (t1 ++ t2) <-> upsert_succeeded t1 \/ upsert_succeeded t2.
Proof.
  unfold upsert_succeeded. split.
  - intros (table & row & options & upserted & e & Hin & Hrest).
    apply elem_of_app in Hin as [Hin|Hin]; [left|right]; eauto 10.
  - intros [(table & row & options & upserted & e & Hin & Hrest)
           |(table & row & options & upserted & e & Hin & Hrest)];
      exists table, row, options, upserted, e; (split; [|done]); apply elem_of_app; eauto.
Qed.

(** What one request can do to the session slot. *)
Lemma serve_step cfg w req s res s' t :
  serve cfg w req s = (res, s', t) ->
  s' = s
  \/ (route req = GetLogout /\ s' = None)
  \/ (route req = GetCallback /\ upsert_succeeded t
      /\ exists u, s' = Some u /\ from_provider t u).
Proof.
  destruct req as [r q]. intros Hserve.
  destruct r;
    try (match type of Hserve with
         | serve _ _ {| route := ?r |} _ = _ =>
             destruct (serve_frame cfg w r q s) as [res' Heq]; [done|done|]
         end;
         rewrite Hserve in Heq; simplify_eq; by left).
  2: { destruct s; unfold serve in Hserve; simpl in Hserve; simplify_eq; by eauto. }
  destruct (serve_callback cfg w q s) as (res0 & s0 & t0 & Heq & Hrun).
  rewrite Hserve in Heq. simplify_eq.
  destruct Hrun; try by left.
  right. right. split; [done|].
  match goal with
  | H : axios_settle (net_get _ _ _) = Ok _ |- _ => apply axios_settle_Ok in H as [Hget Hst]
  end.
  split.
  - match goal with H : store_upsert _ _ _ _ = Ok _ |- _ => rewrite H end.
    eexists _, _, _, _, _. split; [right; right; left|]. eauto.
  - eexists. split; [done|]. rewrite Hget.
    eexists _, _, _, _. split; [right; left|]. simpl. eauto 10.
Qed.

Lemma serve_all_cons cfg mode w req rest s :
  serve_all cfg mode ((w, req) :: rest) s
  = (let r := serve cfg w req s in
     if ends_process mode (fst (fst r)) then ([fst (fst r)], snd (fst r), snd r)
     else
       let rs := serve_all cfg mode rest (snd (fst r)) in
       (fst (fst r) :: fst (fst rs), snd (fst rs), snd r ++ snd rs)).
Proof.
  cbn [serve_all]. destruct (serve cfg w req s) as [[res s1] t1]. simpl.
  destruct (ends_process mode res); [done|].
  by destruct (serve_all cfg mode rest s1) as [[ress s2] t2].
Qed.

Lemma serve_all_provenance cfg mode requests s ress s' t u :
  serve_all cfg mode requests s = (ress, s', t) ->
  s' = Some u ->
  s = Some u \/ (from_provider t u /\ upsert_succeeded t).
Proof.
  revert s ress s' t. induction requests as [|[w req] rest IH]; intros s ress s' t.
  - intros [= <- <- <-] ->. by left.
  - rewrite serve_all_cons.
    destruct (serve cfg w req s) as [[res s1] t1] eqn:Hstep. simpl.
    destruct (ends_process mode res).
    { intros [= <- <- <-] ->.
      destruct (serve_step _ _ _ _ _ _ _ Hstep)
        as [Hs|[[_ Hs]|(_ & Hup & u' & Hs & Hfrom)]]; simplify_eq; auto. }
    destruct (serve_all cfg mode rest s1) as [[ress2 s2] t2] eqn:Hrest. simpl.
    intros [= <- <- <-] ->.
    destruct (IH _ _ _ _ Hrest eq_refl) as [->|[Hfrom Hup]].
    + destruct (serve_step _ _ _ _ _ _ _ Hstep)
        as [Hs|[[_ Hs]|(_ & Hup & u' & Hs & Hfrom)]]; simplify_eq.
      * by left.
      * right. split; [by apply from_provider_app_l|].
        apply upsert_succeeded_app. by left.
    + right. split; [by apply from_provider_app_r|].
      apply upsert_succeeded_app. by right.
Qed.

(** X16. Over any sequence of requests served from an empty session
    slot, a user found in the slot at the end was put there by a
    callback: its id, email, name and picture are those of a 2xx
    userinfo answer received during the sequence, and an upsert of the
    sequence succeeded.  No other route can authenticate anyone.  This
    holds whether or not a callback that ends without a response ends
    the process. *)
Theorem session_provenance cfg mode requests ress u t :
  serve_all cfg mode requests None = (ress, Some u, t) ->
  from_provider t u /\ upsert_succeeded t.
Proof.
  intros Hall.
  by destruct (serve_all_provenance _ _ _ _ _ _ _ u Hall eq_refl) as [[=]|?].
Qed.

Lemma session_provenance_witness :
  from_provider
    [ AxiosPost token_endpoint (token_params Scenario.cfg (JStr "abc"))
        (HttpResponse 200 Scenario.token_body);
      AxiosGet userinfo_endpoint (userinfo_headers "t1")
        (HttpResponse 401 (JObj {[ "error" := JStr "invalid_token" ]}));
      AxiosPost token_endpoint (token_params Scenario.cfg (JStr "abc"))
        (HttpResponse 200 Scenario.token_body);
      AxiosGet userinfo_endpoint (userinfo_headers "t1")
        (HttpResponse 200 Scenario.profile_body);
      SupabaseUpsert "users"
        (upsert_row (JStr "a@b.com") (JStr "A") (JStr "p") (JStr "1")
           "2025-01-01T00:00:00.000Z")
        upsert_options
        (Ok (JObj {[ "data" := JNull; "error" := JNull ]})) ]
    Scenario.user_a.
Proof.
  eapply proj1.
  eapply (session_provenance Scenario.cfg Throw
            [ (Scenario.world_ok, Scenario.get GetProfile);
              (Scenario.world_userinfo_401, Scenario.callback_with Scenario.query_code);
              (Scenario.world_ok, Scenario.callback_with Scenario.query_code);
              (Scenario.world_ok, Scenario.get GetHome) ]).
  vm_compute. reflexivity.
Defined.

(** X17. Failed callbacks never authenticate, however often they are
    repeated: over a sequence of requests none of which is [/logout]
    and in which no upsert succeeds, the session slot ends as it
    started, whether or not a callback that ends without a response
    ends the process. *)
Theorem failures_keep_session cfg mode requests s ress s' t :
  serve_all cfg mode requests s = (ress, s', t) ->
  Forall (fun wr => route (snd wr) <> GetLogout) requests ->
  ~ upsert_succeeded t ->
  s' = s.
Proof.
  revert s ress s' t. induction requests as [|[w req] rest IH]; intros s ress s' t.
  - by intros [= <- <- <-].
  - rewrite serve_all_cons.
    destruct (serve cfg w req s) as [[res s1] t1] eqn:Hstep. simpl.
    destruct (ends_process mode res).
    { intros [= <- <- <-] Hroutes Hnot.
      apply Forall_cons in Hroutes as [Hroute _]. simpl in Hroute.
      destruct (serve_step _ _ _ _ _ _ _ Hstep) as [Hs|[[Hlogout _]|(_ & Hup & _)]];
        [done|done|tauto]. }
    destruct (serve_all cfg mode rest s1) as [[ress2 s2] t2] eqn:Hrest. simpl.
    intros [= <- <- <-] Hroutes Hnot.
    apply Forall_cons in Hroutes as [Hroute Hroutes]. simpl in Hroute.
    rewrite upsert_succeeded_app in Hnot.
    rewrite (IH _ _ _ _ Hrest Hroutes) by tauto.
    destruct (serve_step _ _ _ _ _ _ _ Hstep) as [Hs|[[Hlogout _]|(_ & Hup & _)]];
      [done|done|tauto].
Qed.

Lemma failures_keep_session_witness :
  exists ress t,
    serve_all Scenario.cfg Warn
      [ (Scenario.world_ok, Scenario.callback_with Unprintable.query_object_error);
        (Scenario.world_provider_down, Scenario.callback_with Scenario.query_code);
        (Scenario.world_store_error, Scenario.callback_with Scenario.query_code);
        (Scenario.world_ok, Scenario.callback_with Scenario.query_error_and_code) ]
      (Some Scenario.user_b)
    = (ress, Some Scenario.user_b, t).
Proof.
  assert (exists ress s' t,
            serve_all Scenario.cfg Warn
              [ (Scenario.world_ok, Scenario.callback_with Unprintable.query_object_error);
                (Scenario.world_provider_down, Scenario.callback_with Scenario.query_code);
                (Scenario.world_store_error, Scenario.callback_with Scenario.query_code);
                (Scenario.world_ok, Scenario.callback_with Scenario.query_error_and_code) ]
              (Some Scenario.user_b)
            = (ress, s', t)
            /\ t = [ AxiosPost token_endpoint (token_params Scenario.cfg (JStr "abc"))
                       (TransportFailure "connect ECONNREFUSED");
                     AxiosPost token_endpoint (token_params Scenario.cfg (JStr "abc"))
                       (HttpResponse 200 Scenario.token_body);
                     AxiosGet userinfo_endpoint (userinfo_headers "t1")
                       (HttpResponse 200 Scenario.profile_body);
                     SupabaseUpsert "users"
                       (upsert_row (JStr "a@b.com") (JStr "A") (JStr "p") (JStr "1")
                          "2025-01-01T00:00:00.000Z")
                       upsert_options
                       (Ok (JObj {[ "data" := JNull; "error" := Scenario.store_error ]})) ])
    as (ress & s' & t & Hall & Ht).
  { eexists _, _, _. split; vm_compute; reflexivity. }
  exists ress, t. rewrite Hall. f_equal. f_equal.
  eapply (failures_keep_session _ _ _ _ _ _ _ Hall).
  - repeat constructor; discriminate.
  - rewrite Ht.
    intros (table & row & options & upserted & e & Hin & Herror & Hfalsy).
    trace_cases Hin. vm_compute in Herror. by simplify_eq.
Defined.

(** ** The callback and the session slot *)

(** Two facts of a run on the same answer or the same value. *)
Ltac run_agree :=
  repeat match goal with
  | H1 : ?x = Ok _, H2 : ?x = Thrown _ |- _ => rewrite H1 in H2; discriminate
  | H1 : ?x = Some _, H2 : ?x = None |- _ => rewrite H1 in H2; discriminate
  | H1 : ?x = true, H2 : ?x = false |- _ => rewrite H1 in H2; discriminate
  | H1 : ?x = Ok ?a, H2 : ?x = Ok ?b |- _ => rewrite H1 in H2; simplify_eq
  | H1 : ?x = Thrown ?a, H2 : ?x = Thrown ?b |- _ => rewrite H1 in H2; simplify_eq
  | H1 : ?x = Some ?a, H2 : ?x = Some ?b |- _ => rewrite H1 in H2; simplify_eq
  | H1 : js_get ?v ?k1 = None, H2 : js_get ?v ?k2 = Some _ |- _ =>
      pose proof (js_get_None v k1 k2 H1); congruence
  | H : _ \/ _ |- _ => destruct H
  end.

(** A run listed by [CallbackRun] is what the application answers. *)
Lemma CallbackRun_sound cfg w q s res s' t :
  CallbackRun cfg w q s res s' t ->
  serve cfg w {| route := GetCallback; query := q |} s = (res, s', t).
Proof.
  intros Hrun.
  destruct (serve_callback cfg w q s) as (res0 & s0 & t0 & Heq & Hrun0).
  rewrite Heq.
  destruct Hrun; destruct Hrun0; try congruence.
  all: run_agree; cbn [data status] in *; run_agree.
  all: try reflexivity.
Qed.

(** The same run from another content of the session slot. *)
Lemma CallbackRun_other_session cfg w q s1 s2 res s' t :
  CallbackRun cfg w q s1 res s' t ->
  CallbackRun cfg w q s2 res (if decide (status_of res = 302) then s' else s2) t.
Proof.
  intros Hrun.
  destruct Hrun; cbn [status_of];
    [ rewrite decide_False by done; eapply run_provider_error
    | rewrite decide_False by done; eapply run_provider_error_unprintable
    | rewrite decide_False by done; eapply run_no_code
    | rewrite decide_False by done; eapply run_token_rejected
    | rewrite decide_False by done; eapply run_token_unreadable
    | rewrite decide_False by done; eapply run_token_unprintable
    | rewrite decide_False by done; eapply run_userinfo_rejected
    | rewrite decide_False by done; eapply run_userinfo_unreadable
    | rewrite decide_False by done; eapply run_upsert_rejected
    | rewrite decide_False by done; eapply run_upsert_rejected_unprintable
    | rewrite decide_False by done; eapply run_upsert_unreadable
    | rewrite decide_False by done; eapply run_store_error
    | rewrite decide_False by done; eapply run_store_error_unprintable
    | rewrite decide_True by done; eapply run_signed_in ];
    eassumption.
Qed.

(** X18. The callback never reads the session slot: served from two
    different contents of the slot, the same request with the same
    answers of the outside world gets the same response and makes the
    same outbound calls, and it either leaves both slots as they were or
    puts the same user in both.  Whoever is signed in, a callback signs
    in the user of the code. *)
Theorem callback_ignores_session cfg w q s1 s2 :
  exists res t s1' s2',
    serve cfg w {| route := GetCallback; query := q |} s1 = (res, s1', t)
    /\ serve cfg w {| route := GetCallback; query := q |} s2 = (res, s2', t)
    /\ ((s1' = s1 /\ s2' = s2) \/ (s1' = s2' /\ is_Some s1')).
Proof.
  destruct (serve_callback cfg w q s1) as (res & s1' & t & Heq1 & Hrun).
  pose proof (CallbackRun_sound _ _ _ _ _ _ _
                (CallbackRun_other_session cfg w q s1 s2 res s1' t Hrun)) as Heq2.
  exists res, t, s1', (if decide (status_of res = 302) then s1' else s2).
  split; [exact Heq1|]. split; [exact Heq2|].
  destruct Hrun; cbn [status_of];
    first [ rewrite decide_False by done; by left
          | rewrite decide_True by done; right; split; [reflexivity|by eexists] ].
Qed.
